(** * Fastify workshop examples: route handlers over in-memory stores

    A shallow embedding of the route handlers and helpers of the workshop
    examples (registration and login, the login guard, flash messages,
    the wiki, avatar upload, the validated contact form and the book
    lookup), followed by the properties established for them. *)

From Stdlib Require Import String Ascii List ZArith Bool Lia.
From stdpp Require Import base option list gmap strings pretty.

Local Open Scope string_scope.
Local Open Scope list_scope.

(** ** JavaScript strings

    A JavaScript string is embedded as the [string] of its UTF-8 bytes,
    so that [String.length] is its size in bytes and [characters] the
    number of its characters.  The ASCII characters are the bytes below
    128, and no byte of a longer sequence is one of them. *)
Module JsString.

(** The second and later bytes of a character's UTF-8 sequence. *)
Definition is_continuation (a : ascii) : bool :=
  let n := nat_of_ascii a in
  (128 <=? n)%nat && (n <? 192)%nat.

(** The number of characters (code points) of a string, which is what
    the validator compares with [minLength] and [maxLength]: every
    character has one byte that is not a continuation byte. *)
Fixpoint characters (s : string) : nat :=
  match s with
  | EmptyString => 0
  | String a s' =>
      if is_continuation a then characters s' else S (characters s')
  end.

(** [c.repeat(n)] for a one-character string. *)
Fixpoint repeat (c : ascii) (n : nat) : string :=
  match n with
  | O => EmptyString
  | S n' => String c (repeat c n')
  end.

(** [s.includes(c)] for a one-character needle. *)
Fixpoint includes (c : ascii) (s : string) : bool :=
  match s with
  | EmptyString => false
  | String a s' => if Ascii.eqb a c then true else includes c s'
  end.

(** [s.split(sep)] for a one-character separator; the result always has
    at least one piece. *)
Fixpoint split (sep : ascii) (s : string) : list string :=
  match s with
  | EmptyString => [EmptyString]
  | String a s' =>
      if Ascii.eqb a sep then EmptyString :: split sep s'
      else match split sep s' with
           | [] => [String a EmptyString]
           | p :: ps => String a p :: ps
           end
  end.

(** [arr.pop()]: the last element, [None] standing for [undefined]. *)
Definition pop (l : list string) : option string := last l.

Definition lower_char (a : ascii) : ascii :=
  let n := nat_of_ascii a in
  if (65 <=? n)%nat && (n <=? 90)%nat then ascii_of_nat (n + 32) else a.

(** [s.toLowerCase()] on a string of ASCII characters; the letters A to
    Z are the only characters whose lower-case form is a letter a to
    z.  (Bytes of longer sequences are left as they are.) *)
Fixpoint toLowerCase (s : string) : string :=
  match s with
  | EmptyString => EmptyString
  | String a s' => String (lower_char a) (toLowerCase s')
  end.

(** [arr.join(sep)], which is also how an array converts to a string
    (with [sep = ","]). *)
Fixpoint join (sep : string) (l : list string) : string :=
  match l with
  | [] => EmptyString
  | [x] => x
  | x :: rest => x +:+ sep +:+ join sep rest
  end.

End JsString.

(** ** plugins/multipart.js: the upload whitelist *)
Module Multipart.
Import JsString.

Definition ALLOWED_EXTENSIONS : gset string :=
  {[ "png"; "jpg"; "jpeg"; "gif" ]}.

Definition has (set : gset string) (x : string) : bool :=
  bool_decide (x ∈ set).

(** The [allowedFile] decorator. *)
Definition allowedFile (filename : string) : bool :=
  if negb (includes "." filename) then false
  else match pop (split "." filename) with
       | Some ext => has ALLOWED_EXTENSIONS (toLowerCase ext)
       | None => false
       end.

End Multipart.


(** ** Property reads on object literals

    The in-memory stores are object literals ([const users = {}],
    [{ users: {}, pages: {} }], [booksDb]).  A read [o[k]] first looks for
    an own property and then follows the prototype link, which for an object
    literal is [Object.prototype]. *)
Module Js.

(** The property names every object literal inherits. *)
Definition object_prototype_keys : list string :=
  [ "constructor"; "__defineGetter__"; "__defineSetter__"; "hasOwnProperty";
    "__lookupGetter__"; "__lookupSetter__"; "isPrototypeOf";
    "propertyIsEnumerable"; "toString"; "valueOf"; "__proto__";
    "toLocaleString" ].

Definition inherited (k : string) : bool :=
  bool_decide (k ∈ object_prototype_keys).

(** The outcome of a read [o[k]]: a record of the store, a built-in
    reached through [Object.prototype], or [undefined]. *)
Inductive read (A : Type) : Type :=
| Own (a : A)
| Builtin (k : string)
| Undefined.
Arguments Own {A} a.
Arguments Builtin {A} k.
Arguments Undefined {A}.

(** [o[k]] on an object literal whose own properties are [o]. *)
Definition get {A} (o : gmap string A) (k : string) : read A :=
  match o !! k with
  | Some a => Own a
  | None => if inherited k then Builtin k else Undefined
  end.

(** Records and built-in functions are objects, hence truthy. *)
Definition truthy {A} (r : read A) : bool :=
  match r with
  | Undefined => false
  | _ => true
  end.

(** An object literal whose prototype link may be replaced: [proto = None]
    stands for the initial [Object.prototype]. *)
Record object (A : Type) : Type :=
  Object { own : gmap string A; proto : option A }.
Arguments Object {A} own proto.
Arguments own {A} o.
Arguments proto {A} o.

(** [o[k] = v] for a record [v]: a plain assignment creates or replaces
    the own property, except that [__proto__], when it is not an own
    property, is the inherited accessor that re-parents [o]. *)
Definition set {A} (o : object A) (k : string) (v : A) : object A :=
  if String.eqb k "__proto__" && negb (bool_decide (is_Some (own o !! k)))
  then Object (own o) (Some v)
  else Object (<[k := v]> (own o)) (proto o).

(** The record that the read [o[k]] yields when [k] names an own property
    or, for [__proto__], the record installed as prototype. *)
Definition record_at {A} (o : object A) (k : string) : option A :=
  match own o !! k with
  | Some a => Some a
  | None => if String.eqb k "__proto__" then proto o else None
  end.

End Js.

(** ** Session state and flash messages *)
Module Session.

(** The values the handlers keep in a session: strings and numbers. *)
Inductive value : Type :=
| Str (s : string)
| Num (n : Z).

(** JavaScript truthiness of [session.get(key)]; [None] is [undefined]. *)
Definition truthy (v : option value) : bool :=
  match v with
  | None => false
  | Some (Str s) => negb (String.eqb s "")
  | Some (Num n) => negb (n =? 0)%Z
  end.

(** The property key a value turns into when used as [o[v]]. *)
Definition to_key (v : option value) : string :=
  match v with
  | None => "undefined"
  | Some (Str s) => s
  | Some (Num n) => pretty n
  end.

(** A session: the variables set by the handlers and the pending flash
    messages per category. *)
Record t : Type := Make { vars : gmap string value;
                         flash : gmap string (list string) }.

Definition empty : t := Make ∅ ∅.

(** [session.get(key)] *)
Definition get (key : string) (s : t) : option value := vars s !! key.

(** [session.set(key, v)] *)
Definition set (key : string) (v : value) (s : t) : t :=
  Make (<[key := v]> (vars s)) (flash s).

(** The messages waiting under a category. *)
Definition pending (category : string) (s : t) : list string :=
  default [] (flash s !! category).

End Session.

Module Flash.
Import Session.

(** Modelled from the spec: the flash plugin ([request.flash] and
    [reply.flash] of the registered flash module) is not among the sources.
    A flash message is a one-time notification stored in session state:
    [request.flash(category, msg)] adds [msg] to the pending messages of
    [category]. *)
Definition request_flash (category msg : string) (s : t) : t :=
  Make (vars s) (<[category := pending category s ++ [msg]]> (flash s)).

(** Modelled from the spec: the flash plugin is not among the sources.
    A flash message is cleared after being read: [reply.flash(category)]
    returns the pending messages of [category] and removes them from the
    session. *)
Definition reply_flash (category : string) (s : t) : list string * t :=
  (pending category s, Make (vars s) (delete category (flash s))).

Record message : Type := Message { category : string; text : string }.

Definition categories : list string := [ "danger"; "success"; "info" ].

(** The pending messages of one category, each paired with the category. *)
Definition tagged (category : string) (s : t) : list message :=
  Message category <$> pending category s.

(** utils.js: [collectMessages(reply)] *)
Definition collectMessages (s : t) : list message * t :=
  fold_left
    (fun '(messages, s) category =>
       let '(msgs, s') := reply_flash category s in
       (fold_left (fun messages msg => messages ++ [Message category msg])
                  msgs messages, s'))
    categories ([], s).

End Flash.

(** ** Requests, replies and the world a handler runs in *)
Module Http.

(** What a handler answers with: a rendered view, a redirect, or an
    exception that escapes the handler. *)
Inductive reply (V : Type) : Type :=
| View (v : V)
| Redirect (url : string)
| Throw (err : string).
Arguments View {V} v.
Arguments Redirect {V} url.
Arguments Throw {V} err.

(** The state a request can touch: the application's store (what is hung
    on the [fastify] instance) and the requester's session. *)
Record world (S : Type) : Type := World { store : S; session : Session.t }.
Arguments World {S} store session.
Arguments store {S} w.
Arguments session {S} w.

(** [request.flash(category, msg)] *)
Definition flash {S} (category msg : string) (w : world S) : world S :=
  World (store w) (Flash.request_flash category msg (session w)).

(** [request.session.set(key, v)] *)
Definition session_set {S} (key : string) (v : Session.value)
    (w : world S) : world S :=
  World (store w) (Session.set key v (session w)).

Definition with_store {S} (st : S) (w : world S) : world S :=
  World st (session w).

End Http.

(** ** Password hashing

    [argon2.hash] draws a fresh salt on every call; the salt is made an
    explicit input. *)
Class Argon2 : Type := {
  salt : Type;
  argon2_hash : salt -> string -> string;
  argon2_verify : string -> string -> bool
}.

(** ** plugins/auth.js: the [loginRequired] decorator *)
Module Auth.
Import Http.

(** [loginRequired(handler)] returns the guarded handler. *)
Definition loginRequired {S V} (handler : world S -> reply V * world S)
    : world S -> reply V * world S :=
  fun w =>
    if negb (Session.truthy (Session.get "user" (session w))) then
      (Redirect "/login",
       flash "danger" "You must log in to access this page." w)
    else handler w.

End Auth.

(** ** Workshop 4, example 1: users kept in an object literal *)
Module MemAuth.
Import Http.

Record user : Type := User { passwordHash : string }.

(** [const users = {}], decorated on the instance as [fastify.users]. *)
Definition users : gmap string user := ∅.

Inductive view : Type :=
| profile (username : option Session.value).

Section Routes.
Context `{Argon2}.

(** [fastify.post('/register', ...)] with body [{ username, password }].
    The assignment is reached only when the read was falsy, which rules out
    the inherited names ([__proto__] among them): it creates an own
    property. *)
Definition post_register (username password : string) (sl : salt)
    (w : world (gmap string user)) : reply view * world (gmap string user) :=
  if Js.truthy (Js.get (store w) username) then
    (Redirect "/register", flash "danger" "Username already exists!" w)
  else
    let passwordHash := argon2_hash sl password in
    let w := with_store (<[username := User passwordHash]> (store w)) w in
    (Redirect "/login",
     flash "success" "Registration successful! Please log in." w).

(** [fastify.get('/profile', await fastify.loginRequired(...))] *)
Definition get_profile
    : world (gmap string user) -> reply view * world (gmap string user) :=
  Auth.loginRequired
    (fun w => (View (profile (Session.get "user" (session w))), w)).

End Routes.

End MemAuth.

(** ** The [user] table of the database-backed examples *)
Module UserTable.

(** A row: [id INTEGER PRIMARY KEY AUTOINCREMENT], [username] (unique,
    not null), [password_hash] (not null). *)
Record row : Type := Row { id : Z; username : string; password_hash : string }.

Definition table : Type := list row.

(** [SELECT * FROM user WHERE username = ?], first row
    ([User.findOne({ where: { username } })], [db.get]). *)
Definition find_by_username (name : string) (t : table) : option row :=
  List.find (fun r => String.eqb (username r) name) t.

(** [INSERT INTO user (username, password_hash) VALUES (?, ?)]: the row
    gets the next id (no route deletes rows, so that is one more than the
    number of rows); the insert fails when the unique constraint on
    [username] is violated. *)
Definition insert (name hash : string) (t : table) : option (row * table) :=
  match find_by_username name t with
  | Some _ => None
  | None =>
      let r := Row (Z.of_nat (S (length t))) name hash in
      Some (r, t ++ [r])
  end.

(** [UPDATE user SET ... WHERE id = ?] with the fields of an instance
    ([user.save()]). *)
Definition update (r : row) (t : table) : table :=
  List.map (fun r' => if (id r' =? id r)%Z then r else r') t.

End UserTable.

(** ** Workshop 4, example 6: the ORM-backed routes *)
Module OrmAuth.
Import Http UserTable.

Inductive view : Type := .

Section Routes.
Context `{Argon2}.

(** models/user.js: [checkPassword] *)
Definition checkPassword (this : row) (password : string) : bool :=
  argon2_verify (password_hash this) password.

(** [fastify.post('/register', ...)] *)
Definition post_register (username password : string) (sl : salt)
    (w : world table) : reply view * world table :=
  match find_by_username username (store w) with
  | Some _ =>
      (Redirect "/register", flash "danger" "Username already exists!" w)
  | None =>
      let password_hash := argon2_hash sl password in
      match insert username password_hash (store w) with
      | None => (Throw "SequelizeUniqueConstraintError", w)
      | Some (user, t) =>
          let w := with_store (update user t) w in
          (Redirect "/login",
           flash "success" "Registration successful! Please log in." w)
      end
  end.

(** [fastify.post('/login', ...)] *)
Definition post_login (username password : string)
    (w : world table) : reply view * world table :=
  match find_by_username username (store w) with
  | Some user =>
      if negb (checkPassword user password) then
        (Redirect "/login", flash "danger" "Invalid username or password." w)
      else
        let w := session_set "user_id" (Session.Num (id user)) w in
        let w := session_set "user" (Session.Str (UserTable.username user)) w in
        (Redirect "/", flash "success" "Logged in successfully!" w)
  | None =>
      (Redirect "/login", flash "danger" "Invalid username or password." w)
  end.

End Routes.

End OrmAuth.

(** ** The raw-SQL routes behind a [User] class *)
Module SqlAuth.
Import Http UserTable.

Inductive view : Type := .

Section Routes.
Context `{Argon2}.

(** utils/user.js: [User.findByUsername(db, username)] *)
Definition User_findByUsername (username : string) (db : table)
    : option row :=
  find_by_username username db.

(** [fastify.post('/login', ...)] *)
Definition post_login (username password : string)
    (w : world table) : reply view * world table :=
  match User_findByUsername username (store w) with
  | Some user =>
      if negb (argon2_verify (password_hash user) password) then
        (Redirect "/login", flash "danger" "Invalid username or password." w)
      else
        let w := session_set "user_id" (Session.Num (id user)) w in
        let w := session_set "user" (Session.Str (UserTable.username user)) w in
        (Redirect "/", flash "success" "Logged in successfully!" w)
  | None =>
      (Redirect "/login", flash "danger" "Invalid username or password." w)
  end.

End Routes.

End SqlAuth.

(** ** Workshop 3: the wiki with avatar upload *)
Module Wiki.
Import Http.

Record user : Type := User { password : string; avatar : option string }.

(** A page as [POST /create] stores it; [html_content] is the field
    [GET /wiki/:page_name] adds when the page is rendered. *)
Record page : Type :=
  Page { content : string; author : option Session.value;
         html_content : option string }.

(** An uploaded file as the multipart plugin attaches it: its name and
    the bytes of its contents. *)
Record file : Type := File { filename : string; _buf : string }.

(** What the multipart plugin attaches to [request.body] under a field
    name: a file, or a text field, which has a [value] and no
    [filename]. *)
Inductive part : Type :=
| file_part (f : file)
| field_part (value : string).

(** What hangs on the instance: [dataStore.users], [dataStore.pages], and
    the files under [UPLOAD_FOLDER]: path and contents, one entry for
    each path, the latest written first. *)
Record app : Type :=
  App { users : gmap string user; pages : Js.object page;
        disk : list (string * string) }.

(** plugins/db-plugin.js: [inMemoryDatabase] *)
Definition inMemoryDatabase : app := App ∅ (Js.Object ∅ None) [].

Definition UPLOAD_FOLDER : string := "public/avatars".

(** [path.join(dir, name)] for a plain file name. *)
Definition path_join (dir name : string) : string := dir +:+ "/" +:+ name.

(** The views the protected routes render, with the data that depends on
    the request (the [create_page] view also receives the editor's
    configuration, a constant). *)
Inductive view : Type :=
| create_page (messages : list Flash.message)
| profile (user : Js.read user) (messages : list Flash.message).

Definition set_users (u : gmap string user) (a : app) : app :=
  App u (pages a) (disk a).
Definition set_pages (p : Js.object page) (a : app) : app :=
  App (users a) p (disk a).

(** [fs.promises.writeFile(path, data)]: the file is created, or its
    contents replaced. *)
Definition writeFile (path data : string) (a : app) : app :=
  App (users a) (pages a)
      ((path, data)
       :: List.filter (fun e => negb (String.eqb (fst e) path)) (disk a)).

(** The contents of the file at [path], if there is one. *)
Definition readFile (path : string) (a : app) : option string :=
  snd <$> List.find (fun e => String.eqb (fst e) path) (disk a).

(** [const messages = collectMessages(reply)] *)
Definition collect (w : world app) : list Flash.message * world app :=
  let '(messages, s) := Flash.collectMessages (session w) in
  (messages, World (store w) s).

(** routes/wiki.js: [fastify.get('/create', ...)] *)
Definition get_create (w : world app) : reply view * world app :=
  let '(messages, w) := collect w in
  if negb (Session.truthy (Session.get "username" (session w))) then
    (Redirect "/login",
     flash "danger" "You must be logged in to create a page." w)
  else (View (create_page messages), w).

(** routes/wiki.js: [fastify.post('/create', ...)] with body
    [{ title, content }] *)
Definition post_create (title content : string)
    (w : world app) : reply view * world app :=
  if negb (Session.truthy (Session.get "username" (session w))) then
    (Redirect "/login",
     flash "danger" "You must be logged in to create a page." w)
  else
    let record := Page content (Session.get "username" (session w)) None in
    let w := with_store
               (set_pages (Js.set (pages (store w)) title record) (store w))
               w in
    (Redirect ("/wiki/" +:+ title), w).

(** routes/profile.js: [fastify.get('/profile', ...)] *)
Definition get_profile (w : world app) : reply view * world app :=
  if negb (Session.truthy (Session.get "username" (session w))) then
    (Redirect "/login",
     flash "danger" "You must be logged in to view your profile." w)
  else
    let user := Js.get (users (store w))
                  (Session.to_key (Session.get "username" (session w))) in
    let '(messages, w) := collect w in
    (View (profile user messages), w).

(** routes/profile.js: the handler of [fastify.post('/profile', ...)];
    [avatar] is [request.body.avatar] and [now] the value of
    [Date.now()].  A text field is an object too, so it passes the
    [!file] test; its [filename] is [undefined], on which [allowedFile]
    throws. *)
Definition post_profile (avatar : option part) (now : Z)
    (w : world app) : reply view * world app :=
  if negb (Session.truthy (Session.get "username" (session w))) then
    (Redirect "/login",
     flash "danger" "You must be logged in to upload an avatar." w)
  else
    match avatar with
    | None => (Redirect "/profile", flash "danger" "No file selected." w)
    | Some (field_part _) => (Throw "TypeError", w)
    | Some (file_part file) =>
        if negb (Multipart.allowedFile (filename file)) then
          (Redirect "/profile",
           flash "danger"
                 "Invalid file type. Allowed: png, jpg, jpeg, gif." w)
        else
          let filename := pretty now +:+ "_" +:+ filename file in
          let filepath := path_join UPLOAD_FOLDER filename in
          let w := with_store (writeFile filepath (_buf file) (store w)) w in
          let key := Session.to_key (Session.get "username" (session w)) in
          match Js.get (users (store w)) key with
          | Js.Own u =>
              let u := User (password u) (Some filename) in
              let w := with_store
                         (set_users (<[key := u]> (users (store w)))
                                    (store w)) w in
              (Redirect "/profile", flash "success" "Avatar updated!" w)
          | Js.Builtin _ =>
              (Redirect "/profile", flash "success" "Avatar updated!" w)
          | Js.Undefined => (Throw "TypeError", w)
          end
    end.

(** plugins/multipart.js: [limits: { fileSize: 5 * 1024 * 1024 }], in
    bytes. *)
Definition fileSize : Z := 5 * 1024 * 1024.

(** The error the multipart plugin raises for a file of more than
    [fileSize] bytes; the server answers it with status 413. *)
Definition FST_REQ_FILE_TOO_LARGE : string := "FST_REQ_FILE_TOO_LARGE".

Definition too_large (avatar : option part) : bool :=
  match avatar with
  | Some (file_part file) =>
      (fileSize <? Z.of_nat (String.length (_buf file)))%Z
  | _ => false
  end.

(** [POST /profile] as the server answers it.  With
    [attachFieldsToBody: true] the multipart plugin reads the parts
    into [request.body] before the handler is called, and a file over
    the limit ends the request there. *)
Definition post_profile_request (avatar : option part) (now : Z)
    (w : world app) : reply view * world app :=
  if too_large avatar then (Throw FST_REQ_FILE_TOO_LARGE, w)
  else post_profile avatar now w.

End Wiki.

(** ** Request-body schemas

    The fragment of JSON Schema the routes use: an object with required
    properties and length bounds on string properties.  A body is the
    decoded form: a field name mapped to its string value. *)
Module Schema.

Record string_rule : Type :=
  StringRule { minLength : option nat; maxLength : option nat }.

Record object_schema : Type :=
  ObjectSchema { required : list string;
                 properties : list (string * string_rule) }.

Inductive error : Type :=
| MissingProperty (name : string)
| TooShort (name : string) (limit : nat)
| TooLong (name : string) (limit : nat).

Definition check_required (body : gmap string string) (name : string)
    : option error :=
  match body !! name with
  | None => Some (MissingProperty name)
  | Some _ => None
  end.

Definition check_string (name value : string) (rule : string_rule)
    : option error :=
  match maxLength rule with
  | Some hi =>
      if (hi <? JsString.characters value)%nat then Some (TooLong name hi)
      else match minLength rule with
           | Some lo =>
               if (JsString.characters value <? lo)%nat
               then Some (TooShort name lo)
               else None
           | None => None
           end
  | None =>
      match minLength rule with
      | Some lo =>
          if (JsString.characters value <? lo)%nat
          then Some (TooShort name lo)
          else None
      | None => None
      end
  end.

Definition check_property (body : gmap string string)
    (p : string * string_rule) : option error :=
  match body !! (fst p) with
  | None => None
  | Some value => check_string (fst p) value (snd p)
  end.

(** The first failing check, if any. *)
Fixpoint first_error {A} (check : A -> option error) (l : list A)
    : option error :=
  match l with
  | [] => None
  | x :: rest =>
      match check x with
      | Some e => Some e
      | None => first_error check rest
      end
  end.

(** Validation stops at the first error: the required properties are
    checked before the properties' own rules.  The result is the
    [error.validation] array, empty when the body is accepted. *)
Definition validate (sch : object_schema) (body : gmap string string)
    : list error :=
  match first_error (check_required body) (required sch) with
  | Some e => [e]
  | None =>
      match first_error (check_property body) (properties sch) with
      | Some e => [e]
      | None => []
      end
  end.

End Schema.

(** ** Workshop 2, example 5: the contact form with a CSRF token *)

(** [reply.generateCsrf()] draws a token from the plugin's own state. *)
Class Csrf : Type := {
  csrf_state : Type;
  generateCsrf : csrf_state -> string * csrf_state
}.

Module Contact.
Import Schema.

Definition contactSchema : object_schema :=
  ObjectSchema [ "name"; "message"; "_csrf" ]
    [ ("name", StringRule (Some 3) (Some 25));
      ("message", StringRule None (Some 200));
      ("_csrf", StringRule None None) ].

(** The data handed to the [contact_csrf] template. *)
Record contact_csrf : Type :=
  ContactCsrf { errors : option (list error);
                submittedName : option string;
                csrfToken : string }.

Inductive reply : Type :=
| view (data : contact_csrf)
| send_error (err : string).

Section Routes.
Context `{Csrf}.

(** The application state: the lines written by [fastify.log.info] and
    the CSRF plugin's state. *)
Record app : Type := App { log : list string; csrf : csrf_state }.

(** What reaches the error handler. *)
Inductive failure : Type :=
| ValidationError (validation : list error)
| OtherError (err : string).

(** app.js: [fastify.setErrorHandler(...)] *)
Definition errorHandler (error : failure) (a : app) : reply * app :=
  match error with
  | ValidationError validation =>
      let '(token, st) := generateCsrf (csrf a) in
      (view (ContactCsrf (Some validation) None token), App (log a) st)
  | OtherError err => (send_error err, a)
  end.

(** routes/contact_csrf.js: the handler of [POST /contact_csrf]; a
    field absent from the body reads as [undefined]. *)
Definition post_contact_csrf_handler (body : gmap string string) (a : app)
    : reply * app :=
  let name := body !! "name" in
  let message := body !! "message" in
  let a := App (log a ++
                  [ "Received from " +:+ default "undefined" name +:+ ": "
                      +:+ default "undefined" message ])
               (csrf a) in
  let '(token, st) := generateCsrf (csrf a) in
  (view (ContactCsrf None name token), App (log a) st).

(** The route as registered with [{ schema: contactSchema }]: the body
    is validated first, and a rejected body goes to the error handler
    instead of the route's handler. *)
Definition post_contact_csrf (body : gmap string string) (a : app)
    : reply * app :=
  match validate contactSchema body with
  | [] => post_contact_csrf_handler body a
  | validation => errorHandler (ValidationError validation) a
  end.

End Routes.

End Contact.

(** ** The book lookup route *)
Module Books.

Record book : Type :=
  Book { id : string; title : string; author : string; price : Z }.

Definition booksDb : gmap string book :=
  {[ "201" := Book "201" "Clean Code" "Robert C. Martin" 35;
     "202" := Book "202" "The Pragmatic Programmer" "Andrew Hunt" 45;
     "203" := Book "203" "Design Patterns" "Erich Gamma" 55 ]}.

(** A query-string parameter: absent, given once, or repeated (an array
    of at least two strings). *)
Inductive param : Type :=
| Absent
| Single (s : string)
| Repeated (a b : string) (rest : list string).

(** [p == s] for a string [s]: an array is converted to a string first. *)
Definition loose_eq (p : param) (s : string) : bool :=
  match p with
  | Absent => false
  | Single v => String.eqb v s
  | Repeated a b rest => String.eqb (JsString.join "," (a :: b :: rest)) s
  end.

Inductive body : Type :=
| full (b : book)
| summary_of (title author : option string)
| error (msg : string)
| builtin (k : string).

Record reply : Type := Reply { code : nat; payload : body }.

(** [fastify.get('/books/:bookId', ...)] *)
Definition get_book (bookId : string) (summary : param) : reply :=
  if loose_eq summary "true" then
    match Js.get booksDb bookId with
    | Js.Own b => Reply 200 (summary_of (Some (title b)) (Some (author b)))
    | Js.Builtin _ => Reply 200 (summary_of None None)
    | Js.Undefined => Reply 404 (error "Book not found")
    end
  else
    match Js.get booksDb bookId with
    | Js.Own b => Reply 200 (full b)
    | Js.Builtin k => Reply 200 (builtin k)
    | Js.Undefined => Reply 200 (error "Book not found")
    end.

End Books.

(** ** Vocabulary of the properties *)
Module Spec.
Import Http.

(** The user tables the ORM-backed application can reach: the table is
    created empty at start-up and only the routes touch it. *)
Inductive reachable `{Argon2} : UserTable.table -> Prop :=
| reach_init : reachable []
| reach_register username password sl w :
    reachable (store w) ->
    reachable (store (snd (OrmAuth.post_register username password sl w)))
| reach_login username password w :
    reachable (store w) ->
    reachable (store (snd (OrmAuth.post_login username password w))).

(** Ids are handed out in order, and no two rows share a username. *)
Definition well_formed (t : UserTable.table) : Prop :=
  NoDup (UserTable.username <$> t) /\
  Forall (fun r => (1 <= UserTable.id r <= Z.of_nat (length t))%Z) t.

(** Every page that was readable before is still there, unchanged. *)
Definition keeps_every_page (before after : Js.object Wiki.page) : Prop :=
  forall title r,
    Js.record_at before title = Some r -> Js.record_at after title = Some r.

(** The name [POST /profile] gives to an upload made at time [now], and
    the path it is written to. *)
Definition stored_name (now : Z) (file : Wiki.file) : string :=
  pretty now +:+ "_" +:+ Wiki.filename file.

Definition stored_path (now : Z) (file : Wiki.file) : string :=
  Wiki.path_join Wiki.UPLOAD_FOLDER (stored_name now file).

(** The file is not larger than the upload limit. *)
Definition within_limit (file : Wiki.file) : Prop :=
  (Z.of_nat (String.length (Wiki._buf file)) <= Wiki.fileSize)%Z.

(** A buffer one byte over the upload limit. *)
Definition oversize_buffer : string :=
  JsString.repeat "x" (Z.to_nat (Wiki.fileSize + 1)).

(** What a refused login answers with, and the state it leaves. *)
Definition refused {V} (w : world UserTable.table)
    : reply V * world UserTable.table :=
  (Redirect "/login", flash "danger" "Invalid username or password." w).

(** What an accepted login of [user] answers with, and the state it
    leaves. *)
Definition accepted {V} (user : UserTable.row) (w : world UserTable.table)
    : reply V * world UserTable.table :=
  (Redirect "/",
   flash "success" "Logged in successfully!"
     (session_set "user" (Session.Str (UserTable.username user))
        (session_set "user_id" (Session.Num (UserTable.id user)) w))).

(** The bodies [POST /contact_csrf] has to turn away: a required field is
    missing, the name has fewer than 3 or more than 25 characters, or the
    message has more than 200. *)
Definition rejected_body (body : gmap string string) : Prop :=
  body !! "name" = None \/ body !! "message" = None \/
  body !! "_csrf" = None \/
  (exists name, body !! "name" = Some name /\
                (JsString.characters name < 3 \/ 25 < JsString.characters name)) \/
  (exists message, body !! "message" = Some message /\
                   200 < JsString.characters message).

(** An implementation of the hashing interface that can be run: the
    digest is the salt, a dollar sign and the password. *)
Definition demo_argon2 : Argon2 :=
  {| salt := string;
     argon2_hash := fun sl password => sl +:+ "$" +:+ password;
     argon2_verify := fun digest password =>
       match JsString.pop (JsString.split "$" digest) with
       | Some p => String.eqb p password
       | None => false
       end |}.

(** A token generator that can be run: the state counts the tokens. *)
Definition demo_csrf : Csrf :=
  {| csrf_state := nat;
     generateCsrf := fun n => ("token-" +:+ pretty n, S n) |}.

End Spec.

(** ** Logging out *)
Module Logout.
Import Http.



End Logout.

(** ** Workshop 4, example 1: the other routes of routes/auth.js *)
Module MemSession.
Import Http.

Inductive view : Type :=
| register (messages : list Flash.message)
| login (messages : list Flash.message).

(** [fastify.get('/register', ...)] *)
Definition get_register (w : world (gmap string MemAuth.user))
    : reply view * world (gmap string MemAuth.user) :=
  let '(messages, s) := Flash.collectMessages (session w) in
  (View (register messages), World (store w) s).

(** [fastify.get('/login', ...)] *)
Definition get_login (w : world (gmap string MemAuth.user))
    : reply view * world (gmap string MemAuth.user) :=
  let '(messages, s) := Flash.collectMessages (session w) in
  (View (login messages), World (store w) s).

Section Routes.
Context `{Argon2}.

(** [fastify.post('/login', ...)].  For a name found only through the
    prototype the record has no [passwordHash], and [argon2.verify] throws
    on a digest that is not a string. *)
Definition post_login (username password : string)
    (w : world (gmap string MemAuth.user))
    : reply view * world (gmap string MemAuth.user) :=
  match Js.get (store w) username with
  | Js.Own user =>
      if negb (argon2_verify (MemAuth.passwordHash user) password) then
        (Redirect "/login", flash "danger" "Invalid username or password." w)
      else
        let w := session_set "user" (Session.Str username) w in
        (Redirect "/", flash "success" "Logged in successfully!" w)
  | Js.Builtin _ => (Throw "TypeError", w)
  | Js.Undefined =>
      (Redirect "/login", flash "danger" "Invalid username or password." w)
  end.

End Routes.

End MemSession.

(** ** Workshop 3: routes/auth.js of the wiki *)
Module WikiAuth.
Import Http.

Section Routes.
Context `{Argon2}.

(** [fastify.post('/register', ...)]; the assignment is reached only for a
    name whose read was falsy, so it creates an own property. *)
Definition post_register (username password : string) (sl : salt)
    (w : world Wiki.app) : reply Wiki.view * world Wiki.app :=
  if Js.truthy (Js.get (Wiki.users (store w)) username) then
    (Redirect "/register", flash "danger" "Username already exists!" w)
  else
    let hashedPassword := argon2_hash sl password in
    let w := with_store
               (Wiki.set_users (<[username := Wiki.User hashedPassword None]>
                                  (Wiki.users (store w))) (store w)) w in
    (Redirect "/login",
     flash "success" "Registration successful! Please log in." w).

(** [fastify.post('/login', ...)] *)
Definition post_login (username password : string)
    (w : world Wiki.app) : reply Wiki.view * world Wiki.app :=
  match Js.get (Wiki.users (store w)) username with
  | Js.Own user =>
      if argon2_verify (Wiki.password user) password then
        let w := session_set "username" (Session.Str username) w in
        (Redirect "/home", flash "success" "Login successful!" w)
      else
        (Redirect "/login", flash "danger" "Invalid username or password." w)
  | Js.Builtin _ => (Throw "TypeError", w)
  | Js.Undefined =>
      (Redirect "/login", flash "danger" "Invalid username or password." w)
  end.

End Routes.

(** routes/wiki.js: [createSchema], which no route is registered with. *)
Definition createSchema : Schema.object_schema :=
  Schema.ObjectSchema [ "title"; "content" ]
    [ ("title", Schema.StringRule (Some 1) (Some 50));
      ("content", Schema.StringRule (Some 1) None) ].

End WikiAuth.

(** ** Workshop 2, example 5: the contact form without a schema *)
Module PlainContact.

(** The data handed to the [contact] template. *)
Record contact : Type :=
  Contact { error : option string; submittedName : option string }.

(** JavaScript truthiness of a form field; [None] is [undefined]. *)
Definition truthy (v : option string) : bool :=
  match v with
  | None => false
  | Some s => negb (String.eqb s "")
  end.

(** routes/contact.js: [fastify.post('/contact', ...)]; the state is the
    list of lines written by [fastify.log.info]. *)
Definition post_contact (body : gmap string string) (log : list string)
    : contact * list string :=
  let name := body !! "name" in
  let message := body !! "message" in
  if negb (truthy name) || negb (truthy message) then
    (Contact (Some "Name and message are required") None, log)
  else
    (Contact None name,
     log ++ [ "Received message from " +:+ default "undefined" name +:+ ": "
                +:+ default "undefined" message ]).

End PlainContact.

(** ** Workshop 2, the quote-sharing task *)
Module Quotes.
Import Schema.

(** A stored quote [{ author, quote }]; [None] is [undefined]. *)
Record quote : Type := Quote { author : option string; text : option string }.

Definition shareSchema : object_schema :=
  ObjectSchema [ "author"; "quote"; "_csrf" ]
    [ ("author", StringRule (Some 3) (Some 25));
      ("quote", StringRule (Some 20) (Some 300));
      ("_csrf", StringRule None None) ].

Definition searchSchema : object_schema :=
  ObjectSchema [ "author"; "_csrf" ]
    [ ("author", StringRule (Some 3) (Some 25));
      ("_csrf", StringRule None None) ].

(** The data handed to the [share] and [search] templates. *)
Record data : Type :=
  Data { errors : option (list error); Quotes : option (list quote);
         csrfToken : string }.

Inductive reply : Type :=
| view (viewName : option string) (d : data)
| redirect (url : string)
| throw (err : string)
| send_error (err : string).

Inductive level : Type := info | warn.

Section Routes.
Context `{Csrf}.

(** The application state: [QuotesDB], the lines written through
    [fastify.log], the lines written by [console.log], and the CSRF
    plugin's state. *)
Record app : Type :=
  App { QuotesDB : list quote; log : list (level * string);
        console : list string; csrf : csrf_state }.

Definition write_log (l : level) (line : string) (a : app) : app :=
  App (QuotesDB a) (log a ++ [(l, line)]) (console a) (csrf a).

(** [const token = await reply.generateCsrf()] *)
Definition generate (a : app) : string * app :=
  let '(token, st) := generateCsrf (csrf a) in
  (token, App (QuotesDB a) (log a) (console a) st).

(** app.js: [fastify.setErrorHandler(...)] for a validation error raised
    while serving [url]. *)
Definition errorHandler (url : string) (validation : list error) (a : app)
    : reply * app :=
  let '(token, a) := generate a in
  let viewName :=
    if String.prefix "/share" url then Some "share"
    else if String.prefix "/search" url then Some "search"
    else None in
  let a := write_log warn "errror" a in
  (view viewName (Data (Some validation) None token), a).

(** routes/share.js: [fastify.get('/share', ...)] *)
Definition get_share (a : app) : reply * app :=
  let '(token, a) := generate a in
  let a := write_log warn "aaaaaaaaa" a in
  (view (Some "share") (Data None None token), a).

(** routes/search.js: [fastify.get('/search', ...)] *)
Definition get_search (a : app) : reply * app :=
  let '(token, a) := generate a in
  (view (Some "search") (Data None None token), a).

(** routes/share.js: the handler of [POST /share]. *)
Definition post_share_handler (body : gmap string string) (a : app)
    : reply * app :=
  let author := body !! "author" in
  let quote := body !! "quote" in
  let a := App (QuotesDB a) (log a)
               (console a ++ [ default "undefined" author ]) (csrf a) in
  let a := App (QuotesDB a ++ [ Quote author quote ]) (log a) (console a)
               (csrf a) in
  let a := write_log info
             ("New quote added by " +:+ default "undefined" author) a in
  (redirect "/", a).

(** [POST /share] as registered with [{ schema: shareSchema }]; [query] is
    what follows the path in the request's URL. *)
Definition post_share (query : string) (body : gmap string string) (a : app)
    : reply * app :=
  match validate shareSchema body with
  | [] => post_share_handler body a
  | validation => errorHandler ("/share" +:+ query) validation a
  end.

(** [quote.author.toLowerCase() === author.toLowerCase()]; [None] is the
    [TypeError] of calling a method on [undefined]. *)
Definition same_author (author : option string) (q : quote) : option bool :=
  match Quotes.author q, author with
  | Some qa, Some a =>
      Some (String.eqb (JsString.toLowerCase qa) (JsString.toLowerCase a))
  | _, _ => None
  end.

(** [QuotesDB.filter(...)] with the callback above. *)
Fixpoint filter_by_author (author : option string) (db : list quote)
    : option (list quote) :=
  match db with
  | [] => Some []
  | q :: rest =>
      match same_author author q with
      | None => None
      | Some keep =>
          match filter_by_author author rest with
          | None => None
          | Some found => Some (if keep then q :: found else found)
          end
      end
  end.

(** routes/search.js: the handler of [POST /search]. *)
Definition post_search_handler (body : gmap string string) (a : app)
    : reply * app :=
  match filter_by_author (body !! "author") (QuotesDB a) with
  | None => (throw "TypeError", a)
  | Some found =>
      let '(token, a) := generate a in
      (view (Some "search") (Data None (Some found) token), a)
  end.

(** [POST /search] as registered with [{ schema: searchSchema }]. *)
Definition post_search (query : string) (body : gmap string string) (a : app)
    : reply * app :=
  match validate searchSchema body with
  | [] => post_search_handler body a
  | validation => errorHandler ("/search" +:+ query) validation a
  end.

End Routes.

End Quotes.

(** ** Workshop 1: the product and profile lookups *)
Module Lookup.

(** The [name] property of what a read through [Object.prototype] yields:
    the inherited functions are named after themselves, [constructor] is
    the function [Object], and the prototype object has no name. *)
Definition builtin_name (k : string) : option string :=
  if String.eqb k "constructor" then Some "Object"
  else if String.eqb k "__proto__" then None
  else Some k.

Record product : Type := Product { name : string; price : Z }.

Definition productsDb : gmap string product :=
  {[ "100" := Product "Laptop" 1200;
     "101" := Product "Mouse" 25;
     "102" := Product "Keyboard" 75 ]}.

Inductive product_body : Type :=
| responseData (id : string) (name : option string) (price : option Z)
               (currency : Books.param)
| product_error (msg : string).

Record product_reply : Type :=
  ProductReply { product_code : nat; product_payload : product_body }.

(** routes/products.js: [fastify.get('/products/:productId', ...)] *)
Definition get_product (productId : string) (currency : Books.param)
    : product_reply :=
  let currency := match currency with
                  | Books.Absent => Books.Single "USD"
                  | given => given
                  end in
  match Js.get productsDb productId with
  | Js.Undefined => ProductReply 404 (product_error "Product not found")
  | Js.Own product =>
      ProductReply 200
        (responseData productId (Some (name product)) (Some (price product))
                      currency)
  | Js.Builtin k =>
      ProductReply 200 (responseData productId (builtin_name k) None currency)
  end.

Record profile : Type :=
  Profile { username : string; email : string; role : string }.

Definition profiles : gmap string profile :=
  {[ "Alice" := Profile "Alice" "alice@example.com" "admin";
     "Bob" := Profile "Bob" "bob@example.com" "user";
     "Carol" := Profile "Carol" "carol@example.com" "moderator";
     "Dave" := Profile "Dave" "dave@example.com" "user" ]}.

(** [details !== 'true']: strict comparison, so only the string itself is
    equal to it. *)
Definition strict_ne (p : Books.param) (s : string) : bool :=
  match p with
  | Books.Single v => negb (String.eqb v s)
  | _ => true
  end.

Inductive profile_body : Type :=
| whole (p : profile)
| only_username (username : option string)
| builtin (k : string)
| profile_error (msg : string).

Record profile_reply : Type :=
  ProfileReply { profile_code : nat; profile_payload : profile_body }.

(** routes/profile.js: [fastify.get('/profile/:username', ...)] *)
Definition get_profile (name : string) (details : Books.param)
    : profile_reply :=
  match Js.get profiles name with
  | Js.Undefined => ProfileReply 404 (profile_error "User not found")
  | Js.Own profile =>
      if strict_ne details "true"
      then ProfileReply 200 (only_username (Some (username profile)))
      else ProfileReply 200 (whole profile)
  | Js.Builtin k =>
      if strict_ne details "true"
      then ProfileReply 200 (only_username None)
      else ProfileReply 200 (builtin k)
  end.

End Lookup.

(** ** Vocabulary of the further properties *)
Module Inv.

(** The rows of a table carry the ids 1, 2, 3, ... in order, and every
    stored hash is the output of [argon2.hash] for some salt and
    password. *)
Definition numbered_and_hashed `{Argon2} (t : UserTable.table) : Prop :=
  (forall i r, t !! i = Some r -> UserTable.id r = Z.of_nat (S i)) /\
  (forall r, r ∈ t ->
             exists sl p, UserTable.password_hash r = argon2_hash sl p).

(** A quote as [POST /share] is meant to store it: an author of 3 to 25
    characters and a text of 20 to 300. *)
Definition valid_quote (q : Quotes.quote) : Prop :=
  exists author text,
    q = Quotes.Quote (Some author) (Some text) /\
    3 <= JsString.characters author <= 25 /\ 20 <= JsString.characters text <= 300.

(** The states the quote application can reach: [QuotesDB] starts empty and
    only the form routes run against it. *)
Inductive reachable_quotes `{Csrf} : Quotes.app -> Prop :=
| quotes_init st : reachable_quotes (Quotes.App [] [] [] st)
| quotes_get_share a :
    reachable_quotes a -> reachable_quotes (snd (Quotes.get_share a))
| quotes_get_search a :
    reachable_quotes a -> reachable_quotes (snd (Quotes.get_search a))
| quotes_share query body a :
    reachable_quotes a ->
    reachable_quotes (snd (Quotes.post_share query body a))
| quotes_search query body a :
    reachable_quotes a ->
    reachable_quotes (snd (Quotes.post_search query body a)).

(** The string holds ASCII characters only; on such strings the embedded
    [toLowerCase] is the whole of JavaScript's. *)
Definition ascii_only (s : string) : Prop :=
  Forall (fun c => nat_of_ascii c < 128) (list_ascii_of_string s).

(** The quote's author is [author], letter case apart. *)
Definition written_by (author : string) (q : Quotes.quote) : bool :=
  match Quotes.author q with
  | Some qa =>
      String.eqb (JsString.toLowerCase qa) (JsString.toLowerCase author)
  | None => false
  end.

End Inv.

(** * Properties *)

(** ** Strings *)
Section StringFacts.
Import JsString.

(** On ASCII strings the characters are the bytes. *)
Lemma characters_ascii s :
  Inv.ascii_only s -> characters s = String.length s.
Proof.
  unfold Inv.ascii_only. induction s as [|a s' IH]; [reflexivity|].
  cbn [list_ascii_of_string characters String.length].
  intros Hs. inversion Hs as [|? ? Ha Hs']; subst.
  unfold is_continuation.
  destruct (Nat.leb_spec 128 (nat_of_ascii a)); [lia|].
  cbn [andb]. rewrite (IH Hs'). reflexivity.
Qed.

(** A character is at least one byte. *)
Lemma characters_le_length s : characters s <= String.length s.
Proof.
  induction s as [|a s' IH]; [reflexivity|].
  cbn [characters String.length].
  destruct (is_continuation a); lia.
Qed.

Lemma length_repeat c n : String.length (repeat c n) = n.
Proof.
  induction n as [|n IH]; [reflexivity|].
  cbn [repeat String.length]. rewrite IH. reflexivity.
Qed.

Lemma split_nonempty c s : split c s ≠ [].
Proof.
  destruct s as [|a s']; simpl; [discriminate|].
  destruct (Ascii.eqb a c); [discriminate|].
  destruct (split c s'); discriminate.
Qed.

Lemma split_no_separator c s : includes c s = false -> split c s = [s].
Proof.
  induction s as [|a s' IH]; simpl; [reflexivity|].
  destruct (Ascii.eqb a c); [discriminate|].
  intros Hs. rewrite (IH Hs). reflexivity.
Qed.

Lemma split_snoc c pre e :
  includes c e = false ->
  split c (pre +:+ String c e) = split c pre ++ [e].
Proof.
  intros He. induction pre as [|a pre' IH]; simpl.
  - rewrite Ascii.eqb_refl, (split_no_separator _ _ He). reflexivity.
  - rewrite IH. destruct (Ascii.eqb a c); [reflexivity|].
    pose proof (split_nonempty c pre') as Hne.
    destruct (split c pre'); [congruence|reflexivity].
Qed.

Lemma includes_last c s :
  includes c s = true ->
  exists pre e, s = pre +:+ String c e /\ includes c e = false.
Proof.
  induction s as [|a s' IH]; simpl; [discriminate|].
  intros Hs. destruct (includes c s') eqn:Hs'.
  - destruct (IH eq_refl) as (pre & e & -> & He).
    exists (String a pre), e. split; [reflexivity|assumption].
  - destruct (Ascii.eqb a c) eqn:Hac; [|discriminate].
    apply Ascii.eqb_eq in Hac as ->.
    exists EmptyString, s'. split; [reflexivity|assumption].
Qed.

Lemma includes_app_separator c pre e : includes c (pre +:+ String c e) = true.
Proof.
  induction pre as [|a pre' IH]; simpl.
  - rewrite Ascii.eqb_refl. reflexivity.
  - rewrite IH. destruct (Ascii.eqb a c); reflexivity.
Qed.

Lemma pop_split_snoc c pre e :
  includes c e = false -> pop (split c (pre +:+ String c e)) = Some e.
Proof.
  intros He. unfold pop. rewrite (split_snoc _ _ _ He). apply last_snoc.
Qed.

Lemma lower_char_idem a : lower_char (lower_char a) = lower_char a.
Proof. destruct a as [[] [] [] [] [] [] [] []]; reflexivity. Qed.

Lemma lower_char_dot a :
  Ascii.eqb (lower_char a) "." = Ascii.eqb a ".".
Proof. destruct a as [[] [] [] [] [] [] [] []]; reflexivity. Qed.

Lemma toLowerCase_idem s : toLowerCase (toLowerCase s) = toLowerCase s.
Proof.
  induction s as [|a s' IH]; simpl; [reflexivity|].
  rewrite lower_char_idem, IH. reflexivity.
Qed.

Lemma toLowerCase_app s1 s2 :
  toLowerCase (s1 +:+ s2) = toLowerCase s1 +:+ toLowerCase s2.
Proof.
  induction s1 as [|a s1' IH]; simpl; [reflexivity|].
  rewrite IH. reflexivity.
Qed.

Lemma includes_dot_toLowerCase s :
  includes "." (toLowerCase s) = includes "." s.
Proof.
  induction s as [|a s' IH]; simpl; [reflexivity|].
  rewrite lower_char_dot, IH. reflexivity.
Qed.

End StringFacts.

(** ** The upload whitelist *)
Section MultipartFacts.
Import JsString Multipart.

Lemma allowedFile_decomposed pre ext :
  includes "." ext = false ->
  allowedFile (pre +:+ String "." ext)
  = has ALLOWED_EXTENSIONS (toLowerCase ext).
Proof.
  intros He. unfold allowedFile.
  rewrite includes_app_separator, (pop_split_snoc _ _ _ He). reflexivity.
Qed.

Lemma allowedFile_toLowerCase filename :
  allowedFile (toLowerCase filename) = allowedFile filename.
Proof.
  destruct (includes "." filename) eqn:Hdot.
  - destruct (includes_last _ _ Hdot) as (pre & e & -> & He).
    rewrite toLowerCase_app. simpl toLowerCase.
    change (lower_char ".") with "."%char.
    rewrite !allowedFile_decomposed, ?toLowerCase_idem; try assumption.
    + reflexivity.
    + rewrite includes_dot_toLowerCase. assumption.
  - unfold allowedFile. rewrite includes_dot_toLowerCase, Hdot. reflexivity.
Qed.

(** C9: [allowedFile] accepts a name exactly when the name has a dot and
    the part after its last dot, lowercased, is one of png, jpg, jpeg,
    gif; a name without a dot is refused; and the answer does not depend
    on the case of the letters. *)
Theorem allowedFile_iff_extension_whitelisted :
  (forall filename,
      allowedFile filename = true <->
      exists pre ext,
        filename = pre +:+ "." +:+ ext /\ includes "." ext = false /\
        toLowerCase ext ∈ [ "png"; "jpg"; "jpeg"; "gif" ]) /\
  (forall filename, includes "." filename = false ->
                    allowedFile filename = false) /\
  (forall f1 f2, toLowerCase f1 = toLowerCase f2 ->
                 allowedFile f1 = allowedFile f2).
Proof.
  assert (Hhas : forall x, has ALLOWED_EXTENSIONS x = true <->
                           x ∈ [ "png"; "jpg"; "jpeg"; "gif" ]).
  { intros x. unfold has, ALLOWED_EXTENSIONS.
    rewrite bool_decide_eq_true, !elem_of_union, !elem_of_singleton,
      !elem_of_cons, elem_of_nil. tauto. }
  split; [|split].
  - intros filename. split.
    + intros Hok. destruct (includes "." filename) eqn:Hdot.
      * destruct (includes_last _ _ Hdot) as (pre & e & -> & He).
        rewrite (allowedFile_decomposed _ _ He) in Hok.
        exists pre, e. split; [reflexivity|]. split; [assumption|].
        apply Hhas. assumption.
      * unfold allowedFile in Hok. rewrite Hdot in Hok. discriminate.
    + intros (pre & e & -> & He & Hin).
      change (pre +:+ "." +:+ e) with (pre +:+ String "." e).
      rewrite (allowedFile_decomposed _ _ He). apply Hhas. assumption.
  - intros filename Hdot. unfold allowedFile. rewrite Hdot. reflexivity.
  - intros f1 f2 Heq.
    rewrite <- (allowedFile_toLowerCase f1), <- (allowedFile_toLowerCase f2).
    rewrite Heq. reflexivity.
Qed.

Lemma allowedFile_iff_extension_whitelisted_witness :
  allowedFile "photo.final.JPG" = true /\
  allowedFile "README" = false /\
  allowedFile "a.PnG" = allowedFile "A.pNg".
Proof.
  destruct allowedFile_iff_extension_whitelisted as (H1 & H2 & H3).
  split; [|split].
  - apply H1. exists "photo.final", "JPG".
    split; [reflexivity|]. split; [reflexivity|].
    simpl. rewrite !elem_of_cons. right. left. reflexivity.
  - apply H2. reflexivity.
  - apply H3. reflexivity.
Defined.

End MultipartFacts.

(** ** Flash messages *)
Section FlashFacts.
Import Session Flash.

Lemma push_each category msgs acc :
  fold_left (fun messages msg => messages ++ [Message category msg]) msgs acc
  = acc ++ (Message category <$> msgs).
Proof.
  revert acc. induction msgs as [|m msgs IH]; intros acc; simpl.
  - rewrite app_nil_r. reflexivity.
  - rewrite IH, <- app_assoc. reflexivity.
Qed.

Lemma collectMessages_unfold s :
  collectMessages s
  = (tagged "danger" s ++ tagged "success" s ++ tagged "info" s,
     Make (vars s)
          (delete "info" (delete "success" (delete "danger" (flash s))))).
Proof.
  unfold collectMessages, categories, tagged. simpl.
  rewrite !push_each. simpl. f_equal.
  unfold pending. simpl.
  rewrite !lookup_delete_ne by discriminate.
  rewrite <- app_assoc. reflexivity.
Qed.

(** C5: [collectMessages] returns every pending danger, success and info
    message, removes exactly those three categories from the session and
    leaves the session variables alone, so that calling it again right
    away returns the empty list. *)
Theorem collectMessages_reads_once (s : Session.t) :
  fst (collectMessages s)
  = tagged "danger" s ++ tagged "success" s ++ tagged "info" s /\
  flash (snd (collectMessages s))
  = delete "info" (delete "success" (delete "danger" (flash s))) /\
  pending "danger" (snd (collectMessages s)) = [] /\
  pending "success" (snd (collectMessages s)) = [] /\
  pending "info" (snd (collectMessages s)) = [] /\
  vars (snd (collectMessages s)) = vars s /\
  fst (collectMessages (snd (collectMessages s))) = [].
Proof.
  rewrite (collectMessages_unfold (snd (collectMessages s))).
  rewrite collectMessages_unfold. simpl.
  assert (Hd : pending "danger"
                 (Make (vars s) (delete "info" (delete "success"
                    (delete "danger" (flash s))))) = []).
  { unfold pending. simpl.
    rewrite !lookup_delete_ne, lookup_delete_eq by discriminate. reflexivity. }
  assert (Hs : pending "success"
                 (Make (vars s) (delete "info" (delete "success"
                    (delete "danger" (flash s))))) = []).
  { unfold pending. simpl.
    rewrite lookup_delete_ne, lookup_delete_eq by discriminate. reflexivity. }
  assert (Hi : pending "info"
                 (Make (vars s) (delete "info" (delete "success"
                    (delete "danger" (flash s))))) = []).
  { unfold pending. simpl. rewrite lookup_delete_eq. reflexivity. }
  unfold tagged. rewrite Hd, Hs, Hi. repeat split; reflexivity.
Qed.

End FlashFacts.

(** ** The login guard *)
Section GuardFacts.
Import Http.

Lemma not_set_is_falsy key s :
  Session.get key s = None -> Session.truthy (Session.get key s) = false.
Proof. intros ->. reflexivity. Qed.

Lemma collect_keeps_vars (w : world Wiki.app) :
  Session.vars (session (snd (Wiki.collect w))) = Session.vars (session w) /\
  store (snd (Wiki.collect w)) = store w.
Proof.
  unfold Wiki.collect. rewrite collectMessages_unfold. simpl. auto.
Qed.

(** C2: when the session has no [username] (for the wiki routes) or no
    [user] (for [loginRequired]), every protected handler answers with a
    redirect to /login after flashing a danger message; the guarded
    handler is not run and no view is rendered. *)
Theorem unauthenticated_redirects_to_login :
  (forall w : world Wiki.app,
      Session.get "username" (session w) = None ->
      Wiki.get_profile w
      = (Redirect "/login",
         flash "danger" "You must be logged in to view your profile." w) /\
      Wiki.get_create w
      = (Redirect "/login",
         flash "danger" "You must be logged in to create a page."
               (snd (Wiki.collect w))) /\
      (forall title content,
          Wiki.post_create title content w
          = (Redirect "/login",
             flash "danger" "You must be logged in to create a page." w)) /\
      (forall avatar now,
          Wiki.post_profile avatar now w
          = (Redirect "/login",
             flash "danger" "You must be logged in to upload an avatar." w))) /\
  (forall S V (handler : world S -> reply V * world S) (w : world S),
      Session.get "user" (session w) = None ->
      Auth.loginRequired handler w
      = (Redirect "/login",
         flash "danger" "You must log in to access this page." w)) /\
  (forall w : world (gmap string MemAuth.user),
      Session.get "user" (session w) = None ->
      MemAuth.get_profile w
      = (Redirect "/login",
         flash "danger" "You must log in to access this page." w)).
Proof.
  split; [|split].
  - intros w Hnone. repeat split.
    + unfold Wiki.get_profile. rewrite (not_set_is_falsy _ _ Hnone). reflexivity.
    + unfold Wiki.get_create.
      pose proof (collect_keeps_vars w) as [Hv _].
      destruct (Wiki.collect w) as [messages w1] eqn:Hc. simpl in *.
      unfold Session.get in *. rewrite Hv, Hnone. reflexivity.
    + intros title content. unfold Wiki.post_create.
      rewrite (not_set_is_falsy _ _ Hnone). reflexivity.
    + intros avatar now. unfold Wiki.post_profile.
      rewrite (not_set_is_falsy _ _ Hnone). reflexivity.
  - intros S V handler w Hnone. unfold Auth.loginRequired.
    rewrite (not_set_is_falsy _ _ Hnone). reflexivity.
  - intros w Hnone. unfold MemAuth.get_profile, Auth.loginRequired.
    rewrite (not_set_is_falsy _ _ Hnone). reflexivity.
Qed.

Lemma unauthenticated_redirects_to_login_witness :
  fst (Wiki.get_profile (World Wiki.inMemoryDatabase Session.empty))
  = Redirect "/login" /\
  fst (Wiki.post_create "Home" "<p>hi</p>" (World Wiki.inMemoryDatabase Session.empty))
  = Redirect "/login" /\
  fst (MemAuth.get_profile (World MemAuth.users Session.empty))
  = Redirect "/login".
Proof.
  destruct unauthenticated_redirects_to_login as (Hwiki & _ & Hmem).
  destruct (Hwiki (World Wiki.inMemoryDatabase Session.empty) eq_refl)
    as (Hp & _ & Hc & _).
  rewrite Hp, (Hc "Home" "<p>hi</p>").
  rewrite (Hmem (World MemAuth.users Session.empty) eq_refl).
  repeat split; reflexivity.
Defined.

End GuardFacts.

(** ** The wiki: pages and avatars *)
Section WikiFacts.
Import Http.

Lemma record_at_set_eq {A} (o : Js.object A) k v :
  Js.record_at (Js.set o k v) k = Some v.
Proof.
  unfold Js.set, Js.record_at.
  destruct (String.eqb k "__proto__" &&
            negb (bool_decide (is_Some (Js.own o !! k)))) eqn:Hcase; simpl.
  - apply andb_true_iff in Hcase as [Hk Hown].
    apply negb_true_iff, bool_decide_eq_false in Hown.
    destruct (Js.own o !! k) as [a|]; [exfalso; eauto|].
    rewrite Hk. reflexivity.
  - rewrite lookup_insert_eq. reflexivity.
Qed.

Lemma record_at_set_ne {A} (o : Js.object A) k k' v :
  k' ≠ k -> Js.record_at (Js.set o k v) k' = Js.record_at o k'.
Proof.
  intros Hne. unfold Js.set, Js.record_at.
  destruct (String.eqb k "__proto__" &&
            negb (bool_decide (is_Some (Js.own o !! k)))) eqn:Hcase; simpl.
  - apply andb_true_iff in Hcase as [Hk _].
    apply String.eqb_eq in Hk. subst k.
    destruct (Js.own o !! k'); [reflexivity|].
    destruct (String.eqb k' "__proto__") eqn:Hk'; [|reflexivity].
    apply String.eqb_eq in Hk'. congruence.
  - rewrite lookup_insert_ne by congruence. reflexivity.
Qed.

(** The claim C7 as stated fails: creating a page under a title that is
    already taken replaces the stored page. *)
Lemma post_create_replaces_existing_page :
  let bob := Session.set "username" (Session.Str "bob") Session.empty in
  let old := Wiki.Page "first draft" (Some (Session.Str "alice")) None in
  let before := Wiki.App ∅ (Js.Object {[ "Home" := old ]} None) [] in
  let after := store (snd (Wiki.post_create "Home" "rewritten"
                                            (World before bob))) in
  Js.record_at (Wiki.pages before) "Home" = Some old /\
  Js.record_at (Wiki.pages after) "Home"
  = Some (Wiki.Page "rewritten" (Some (Session.Str "bob")) None) /\
  ~ Spec.keeps_every_page (Wiki.pages before) (Wiki.pages after).
Proof.
  simpl. split; [reflexivity|]. split; [reflexivity|].
  intros Hkeep.
  specialize (Hkeep "Home" _ eq_refl). vm_compute in Hkeep. discriminate.
Qed.

(** C7, amended: a logged-in [POST /create] with title [t] and content
    [c] stores the page [{ content: c, author: session username }] under
    [t], replacing whatever was stored under [t]; the page under every
    other title, the users and the session are unchanged, and the reply
    redirects to the new page. *)
Theorem post_create_writes_one_page (t c : string) (w : world Wiki.app) :
  Session.truthy (Session.get "username" (session w)) = true ->
  let w' := snd (Wiki.post_create t c w) in
  fst (Wiki.post_create t c w) = Redirect ("/wiki/" +:+ t) /\
  Js.record_at (Wiki.pages (store w')) t
  = Some (Wiki.Page c (Session.get "username" (session w)) None) /\
  (forall t', t' ≠ t ->
              Js.record_at (Wiki.pages (store w')) t'
              = Js.record_at (Wiki.pages (store w)) t') /\
  Wiki.users (store w') = Wiki.users (store w) /\
  session w' = session w.
Proof.
  intros Hin. unfold Wiki.post_create. rewrite Hin. simpl.
  split; [reflexivity|]. split; [apply record_at_set_eq|].
  split; [|split; reflexivity].
  intros t' Hne. apply record_at_set_ne. assumption.
Qed.

Lemma post_create_writes_one_page_witness :
  let w := World Wiki.inMemoryDatabase
                 (Session.set "username" (Session.Str "bob") Session.empty) in
  Session.truthy (Session.get "username" (session w)) = true /\
  Js.record_at (Wiki.pages (store (snd (Wiki.post_create "Home" "hello" w))))
               "Home"
  = Some (Wiki.Page "hello" (Some (Session.Str "bob")) None).
Proof.
  simpl. split; [reflexivity|].
  apply (post_create_writes_one_page "Home" "hello"
           (World Wiki.inMemoryDatabase
              (Session.set "username" (Session.Str "bob") Session.empty))).
  reflexivity.
Defined.

Lemma readFile_writeFile_eq path data (a : Wiki.app) :
  Wiki.readFile path (Wiki.writeFile path data a) = Some data.
Proof.
  unfold Wiki.readFile, Wiki.writeFile. cbn.
  rewrite String.eqb_refl. reflexivity.
Qed.

Lemma readFile_writeFile_ne path path' data (a : Wiki.app) :
  path' ≠ path ->
  Wiki.readFile path' (Wiki.writeFile path data a) = Wiki.readFile path' a.
Proof.
  intros Hne. unfold Wiki.readFile, Wiki.writeFile. cbn.
  destruct (String.eqb_spec path path') as [Heq|_]; [congruence|].
  f_equal. induction (Wiki.disk a) as [|[p d] l IH]; [reflexivity|].
  cbn. destruct (String.eqb_spec p path) as [->|Hp]; cbn.
  - destruct (String.eqb_spec path path'); [congruence|]. exact IH.
  - destruct (String.eqb p path'); [reflexivity|exact IH].
Qed.

Lemma append_inj_r (s a b : string) : s +:+ a = s +:+ b -> a = b.
Proof.
  induction s as [|c s IH]; cbn; [auto|].
  intros [= Heq]. auto.
Qed.

Lemma stored_path_inj t1 f1 t2 f2 :
  Spec.stored_path t1 f1 = Spec.stored_path t2 f2 ->
  Spec.stored_name t1 f1 = Spec.stored_name t2 f2.
Proof.
  unfold Spec.stored_path, Wiki.path_join. intros Heq.
  apply append_inj_r in Heq. apply (append_inj_r "/"). exact Heq.
Qed.

Lemma post_profile_request_within file now (w : world Wiki.app) :
  Spec.within_limit file ->
  Wiki.post_profile_request (Some (Wiki.file_part file)) now w
  = Wiki.post_profile (Some (Wiki.file_part file)) now w.
Proof.
  unfold Spec.within_limit, Wiki.post_profile_request, Wiki.too_large.
  intros Hsize.
  destruct (Z.ltb_spec Wiki.fileSize
              (Z.of_nat (String.length (Wiki._buf file)))); [lia|].
  reflexivity.
Qed.

Lemma post_profile_request_too_large file now (w : world Wiki.app) :
  ~ Spec.within_limit file ->
  Wiki.post_profile_request (Some (Wiki.file_part file)) now w
  = (Throw Wiki.FST_REQ_FILE_TOO_LARGE, w).
Proof.
  unfold Spec.within_limit, Wiki.post_profile_request, Wiki.too_large.
  intros Hsize.
  destruct (Z.ltb_spec Wiki.fileSize
              (Z.of_nat (String.length (Wiki._buf file)))); [|lia].
  reflexivity.
Qed.

Lemma oversize_buffer_length :
  Z.of_nat (String.length Spec.oversize_buffer) = (Wiki.fileSize + 1)%Z.
Proof.
  unfold Spec.oversize_buffer. rewrite length_repeat.
  apply Z2Nat.id. unfold Wiki.fileSize. lia.
Qed.

(** The handler on an attached file with an accepted name. *)
Lemma post_profile_allowed file now (w : world Wiki.app) :
  Session.truthy (Session.get "username" (session w)) = true ->
  Multipart.allowedFile (Wiki.filename file) = true ->
  let me := Session.to_key (Session.get "username" (session w)) in
  let written :=
    Wiki.writeFile (Spec.stored_path now file) (Wiki._buf file) (store w) in
  Wiki.post_profile (Some (Wiki.file_part file)) now w
  = match Wiki.users (store w) !! me with
    | Some u =>
        (Redirect "/profile",
         flash "success" "Avatar updated!"
           (World (Wiki.set_users
                     (<[me := Wiki.User (Wiki.password u)
                                (Some (Spec.stored_name now file))]>
                        (Wiki.users (store w))) written)
                  (session w)))
    | None =>
        if Js.inherited me
        then (Redirect "/profile",
              flash "success" "Avatar updated!" (World written (session w)))
        else (Throw "TypeError", World written (session w))
    end.
Proof.
  intros Hin Hok me written. unfold Wiki.post_profile.
  rewrite Hin, Hok. simpl. fold me. fold (Spec.stored_name now file).
  fold (Spec.stored_path now file).
  unfold Js.get.
  destruct (Wiki.users (store w) !! me) as [u|]; [reflexivity|].
  destruct (Js.inherited me); reflexivity.
Qed.

(** The claim C8 as stated fails for a file over the upload limit: a
    logged-in [POST /profile] with [big.exe], whose extension is refused,
    is not answered by a redirect to /profile after a danger flash but by
    the plugin's error (status 413), with no message flashed; and with
    [big.png], whose name is accepted, the avatar of the record is not
    set. *)
Lemma oversize_upload_is_not_redirected :
  let bob := Session.set "username" (Session.Str "bob") Session.empty in
  let w := World (Wiki.App {[ "bob" := Wiki.User "digest" None ]}
                           (Js.Object ∅ None) []) bob in
  Session.truthy (Session.get "username" (session w)) = true /\
  Multipart.allowedFile "big.exe" = false /\
  Multipart.allowedFile "big.png" = true /\
  Z.of_nat (String.length Spec.oversize_buffer) = 5242881%Z /\
  Wiki.post_profile_request
    (Some (Wiki.file_part (Wiki.File "big.exe" Spec.oversize_buffer))) 1700 w
  = (Throw "FST_REQ_FILE_TOO_LARGE", w) /\
  Wiki.post_profile_request
    (Some (Wiki.file_part (Wiki.File "big.png" Spec.oversize_buffer))) 1700 w
  = (Throw "FST_REQ_FILE_TOO_LARGE", w) /\
  Wiki.users (store w) !! "bob" = Some (Wiki.User "digest" None).
Proof.
  intros bob w.
  assert (Hlarge : forall name,
             ~ Spec.within_limit (Wiki.File name Spec.oversize_buffer)).
  { intros name. unfold Spec.within_limit. cbn [Wiki._buf].
    rewrite oversize_buffer_length. lia. }
  split; [reflexivity|].
  split; [vm_compute; reflexivity|].
  split; [vm_compute; reflexivity|].
  split; [rewrite oversize_buffer_length; reflexivity|].
  split; [apply post_profile_request_too_large, Hlarge|].
  split; [apply post_profile_request_too_large, Hlarge|].
  reflexivity.
Qed.

(** C8, amended: a [POST /profile] by a logged-in user never changes a
    password hash, another user's record or the pages, whatever is
    attached.  With an attached file of at most 5 MB whose name passes
    [allowedFile], the avatar of that user's own record becomes the
    stored name (and the file is written).  When no file is attached, or
    the file is at most 5 MB and its extension is refused, nothing in the
    stores changes and the reply is a redirect to /profile after a
    danger flash.  A file of more than 5 MB is refused with the multipart
    plugin's error before the handler runs, and a text field in place of
    the file makes the handler throw: both change nothing. *)
Theorem post_profile_only_sets_avatar
    (avatar : option Wiki.part) (now : Z) (w : world Wiki.app) :
  Session.truthy (Session.get "username" (session w)) = true ->
  let me := Session.to_key (Session.get "username" (session w)) in
  let w' := snd (Wiki.post_profile_request avatar now w) in
  ((forall other, other ≠ me ->
                  Wiki.users (store w') !! other
                  = Wiki.users (store w) !! other) /\
   Wiki.password <$> Wiki.users (store w') !! me
   = Wiki.password <$> Wiki.users (store w) !! me /\
   Wiki.pages (store w') = Wiki.pages (store w)) /\
  (forall file,
      avatar = Some (Wiki.file_part file) ->
      Spec.within_limit file ->
      Multipart.allowedFile (Wiki.filename file) = true ->
      Wiki.users (store w') !! me
      = (fun u => Wiki.User (Wiki.password u)
                            (Some (Spec.stored_name now file)))
          <$> Wiki.users (store w) !! me /\
      Wiki.readFile (Spec.stored_path now file) (store w')
      = Some (Wiki._buf file) /\
      (forall u, Wiki.users (store w) !! me = Some u ->
                 Wiki.post_profile_request avatar now w
                 = (Redirect "/profile",
                    flash "success" "Avatar updated!"
                      (World (Wiki.set_users
                                (<[me := Wiki.User (Wiki.password u)
                                           (Some (Spec.stored_name now file))]>
                                   (Wiki.users (store w)))
                                (Wiki.writeFile (Spec.stored_path now file)
                                                (Wiki._buf file) (store w)))
                             (session w))))) /\
  (avatar = None ->
   Wiki.post_profile_request avatar now w
   = (Redirect "/profile", flash "danger" "No file selected." w)) /\
  (forall file,
      avatar = Some (Wiki.file_part file) ->
      Spec.within_limit file ->
      Multipart.allowedFile (Wiki.filename file) = false ->
      Wiki.post_profile_request avatar now w
      = (Redirect "/profile",
         flash "danger" "Invalid file type. Allowed: png, jpg, jpeg, gif." w)) /\
  (forall file,
      avatar = Some (Wiki.file_part file) ->
      ~ Spec.within_limit file ->
      Wiki.post_profile_request avatar now w
      = (Throw Wiki.FST_REQ_FILE_TOO_LARGE, w)) /\
  (forall value,
      avatar = Some (Wiki.field_part value) ->
      Wiki.post_profile_request avatar now w = (Throw "TypeError", w)).
Proof.
  intros Hin me w'.
  assert (Haccepted : forall file,
             avatar = Some (Wiki.file_part file) ->
             Spec.within_limit file ->
             Multipart.allowedFile (Wiki.filename file) = true ->
             Wiki.post_profile_request avatar now w
             = match Wiki.users (store w) !! me with
               | Some u =>
                   (Redirect "/profile",
                    flash "success" "Avatar updated!"
                      (World (Wiki.set_users
                                (<[me := Wiki.User (Wiki.password u)
                                           (Some (Spec.stored_name now file))]>
                                   (Wiki.users (store w)))
                                (Wiki.writeFile (Spec.stored_path now file)
                                                (Wiki._buf file) (store w)))
                             (session w)))
               | None =>
                   if Js.inherited me
                   then (Redirect "/profile",
                         flash "success" "Avatar updated!"
                           (World (Wiki.writeFile (Spec.stored_path now file)
                                                  (Wiki._buf file) (store w))
                                  (session w)))
                   else (Throw "TypeError",
                         World (Wiki.writeFile (Spec.stored_path now file)
                                               (Wiki._buf file) (store w))
                               (session w))
               end).
  { intros file -> Hsize Hok.
    rewrite (post_profile_request_within _ _ _ Hsize).
    apply (post_profile_allowed file now w Hin Hok). }
  assert (Hmissing : avatar = None ->
                     Wiki.post_profile_request avatar now w
                     = (Redirect "/profile",
                        flash "danger" "No file selected." w)).
  { intros ->. unfold Wiki.post_profile_request, Wiki.post_profile.
    cbn [Wiki.too_large]. rewrite Hin. reflexivity. }
  assert (Hrefused : forall file,
             avatar = Some (Wiki.file_part file) ->
             Spec.within_limit file ->
             Multipart.allowedFile (Wiki.filename file) = false ->
             Wiki.post_profile_request avatar now w
             = (Redirect "/profile",
                flash "danger"
                      "Invalid file type. Allowed: png, jpg, jpeg, gif." w)).
  { intros file -> Hsize Hbad.
    rewrite (post_profile_request_within _ _ _ Hsize).
    unfold Wiki.post_profile. rewrite Hin, Hbad. reflexivity. }
  assert (Hlarge : forall file,
             avatar = Some (Wiki.file_part file) ->
             ~ Spec.within_limit file ->
             Wiki.post_profile_request avatar now w
             = (Throw Wiki.FST_REQ_FILE_TOO_LARGE, w)).
  { intros file -> Hsize. apply post_profile_request_too_large, Hsize. }
  assert (Hfield : forall value,
             avatar = Some (Wiki.field_part value) ->
             Wiki.post_profile_request avatar now w = (Throw "TypeError", w)).
  { intros value ->. unfold Wiki.post_profile_request, Wiki.post_profile.
    cbn [Wiki.too_large]. rewrite Hin. reflexivity. }
  split; [|split; [|split; [exact Hmissing
                           |split; [exact Hrefused
                                   |split; [exact Hlarge|exact Hfield]]]]].
  - (* the frame, by cases on what is attached *)
    subst w'.
    destruct avatar as [[file|value]|];
      [|rewrite (Hfield value eq_refl); auto
       |rewrite (Hmissing eq_refl); auto].
    destruct (decide (Spec.within_limit file)) as [Hsize|Hsize];
      [|rewrite (Hlarge file eq_refl Hsize); auto].
    destruct (Multipart.allowedFile (Wiki.filename file)) eqn:Hok;
      [|rewrite (Hrefused file eq_refl Hsize Hok); auto].
    rewrite (Haccepted file eq_refl Hsize Hok).
    destruct (Wiki.users (store w) !! me) as [u|] eqn:Hu.
    + cbn. rewrite lookup_insert_eq.
      split; [|split; reflexivity].
      intros other Hne. rewrite lookup_insert_ne by congruence. reflexivity.
    + destruct (Js.inherited me); cbn; rewrite Hu; auto.
  - intros file Hav Hsize Hok. subst w'.
    rewrite (Haccepted file Hav Hsize Hok).
    destruct (Wiki.users (store w) !! me) as [u|] eqn:Hu.
    + cbn. rewrite lookup_insert_eq.
      split; [reflexivity|]. split; [|intros u' [= <-]; reflexivity].
      unfold Wiki.readFile. cbn. rewrite String.eqb_refl. reflexivity.
    + destruct (Js.inherited me); cbn; rewrite Hu;
        (split; [reflexivity|]);
        (split; [unfold Wiki.readFile; cbn; rewrite String.eqb_refl;
                 reflexivity|]);
        intros u' [=].
Qed.

Lemma post_profile_only_sets_avatar_witness :
  let bob := Session.set "username" (Session.Str "bob") Session.empty in
  let w := World (Wiki.App {[ "bob" := Wiki.User "digest" None ]}
                           (Js.Object ∅ None) []) bob in
  let upload := Wiki.File "me.PNG" "bytes" in
  Session.truthy (Session.get "username" (session w)) = true /\
  Spec.within_limit upload /\
  Multipart.allowedFile (Wiki.filename upload) = true /\
  Wiki.users
    (store (snd (Wiki.post_profile_request
                   (Some (Wiki.file_part upload)) 1700 w))) !! "bob"
  = Some (Wiki.User "digest" (Some "1700_me.PNG")).
Proof.
  simpl.
  assert (Hsize : Spec.within_limit (Wiki.File "me.PNG" "bytes")).
  { unfold Spec.within_limit, Wiki.fileSize. simpl. lia. }
  split; [reflexivity|]. split; [exact Hsize|].
  split; [vm_compute; reflexivity|].
  destruct (post_profile_only_sets_avatar
              (Some (Wiki.file_part (Wiki.File "me.PNG" "bytes"))) 1700
              (World (Wiki.App {[ "bob" := Wiki.User "digest" None ]}
                               (Js.Object ∅ None) [])
                     (Session.set "username" (Session.Str "bob")
                                  Session.empty))
              eq_refl) as (_ & Haccepted & _).
  destruct (Haccepted (Wiki.File "me.PNG" "bytes") eq_refl Hsize)
    as (Hme & _); [vm_compute; reflexivity|].
  etransitivity; [exact Hme|]. vm_compute. reflexivity.
Defined.

End WikiFacts.

(** ** The user table *)
Section TableFacts.
Import UserTable.

Lemma find_by_username_Some name t r :
  find_by_username name t = Some r -> r ∈ t /\ username r = name.
Proof.
  unfold find_by_username. intros Hf.
  apply List.find_some in Hf as [Hin Heq].
  apply String.eqb_eq in Heq. split; [|assumption].
  apply list_elem_of_In. assumption.
Qed.

Lemma find_by_username_None name t :
  find_by_username name t = None <-> name ∉ username <$> t.
Proof.
  unfold find_by_username. induction t as [|r t IH]; simpl.
  - split; [intros _; apply not_elem_of_nil|reflexivity].
  - rewrite not_elem_of_cons.
    destruct (String.eqb (username r) name) eqn:Heq.
    + apply String.eqb_eq in Heq. split; [discriminate|].
      intros [Hne _]. congruence.
    + apply String.eqb_neq in Heq. rewrite IH. split.
      * intros Hni. split; [congruence|assumption].
      * intros [_ Hni]. assumption.
Qed.

Lemma find_by_username_present name t :
  name ∈ username <$> t -> exists r, find_by_username name t = Some r.
Proof.
  intros Hin. destruct (find_by_username name t) as [r|] eqn:Hf; [eauto|].
  apply find_by_username_None in Hf. contradiction.
Qed.

Lemma update_fresh_row r t :
  Forall (fun r' => (id r' < id r)%Z) t -> update r (t ++ [r]) = t ++ [r].
Proof.
  intros Hlt. unfold update. rewrite List.map_app. simpl.
  rewrite Z.eqb_refl. f_equal.
  induction Hlt as [|r' t' Hr' _ IH]; simpl; [reflexivity|].
  rewrite IH. destruct (Z.eqb_spec (id r') (id r)); [lia|reflexivity].
Qed.

Lemma well_formed_nil : Spec.well_formed [].
Proof. split; constructor. Qed.

Lemma well_formed_ids t :
  Spec.well_formed t ->
  Forall (fun r' => (id r' < Z.of_nat (S (length t)))%Z) t.
Proof.
  intros [_ Hids]. eapply Forall_impl; [exact Hids|].
  simpl. intros r' Hr'. lia.
Qed.

Lemma well_formed_snoc name hash t :
  Spec.well_formed t -> name ∉ username <$> t ->
  Spec.well_formed (t ++ [Row (Z.of_nat (S (length t))) name hash]).
Proof.
  intros [Hnd Hids] Hfresh. split.
  - rewrite fmap_app. simpl. apply NoDup_app. split; [assumption|]. split.
    + intros x Hx Hx'. apply list_elem_of_singleton in Hx'. congruence.
    + apply NoDup_singleton.
  - rewrite length_app. simpl. apply Forall_app. split.
    + eapply Forall_impl; [exact Hids|]. simpl. intros r' Hr'. lia.
    + constructor; [simpl; lia|constructor].
Qed.

End TableFacts.

(** ** Registration *)
Section RegisterFacts.
Import Http UserTable.
Context `{Argon2}.

Lemma orm_register_taken u p sl (w : world table) :
  u ∈ username <$> store w ->
  OrmAuth.post_register u p sl w
  = (Redirect "/register", flash "danger" "Username already exists!" w).
Proof.
  intros Hin. unfold OrmAuth.post_register.
  destruct (find_by_username_present _ _ Hin) as [r ->]. reflexivity.
Qed.

Lemma orm_register_fresh u p sl (w : world table) :
  Spec.well_formed (store w) -> u ∉ username <$> store w ->
  OrmAuth.post_register u p sl w
  = (Redirect "/login",
     flash "success" "Registration successful! Please log in."
       (with_store
          (store w ++ [Row (Z.of_nat (S (length (store w)))) u
                           (argon2_hash sl p)]) w)).
Proof.
  intros Hwf Hfresh. unfold OrmAuth.post_register, insert.
  apply find_by_username_None in Hfresh. rewrite !Hfresh.
  rewrite update_fresh_row; [reflexivity|].
  apply well_formed_ids. assumption.
Qed.

Lemma orm_register_well_formed u p sl (w : world table) :
  Spec.well_formed (store w) ->
  Spec.well_formed (store (snd (OrmAuth.post_register u p sl w))).
Proof.
  intros Hwf.
  destruct (find_by_username u (store w)) as [r|] eqn:Hf.
  - unfold OrmAuth.post_register. rewrite Hf. assumption.
  - apply find_by_username_None in Hf.
    rewrite (orm_register_fresh _ _ _ _ Hwf Hf). simpl.
    apply well_formed_snoc; assumption.
Qed.

Lemma orm_login_store u p (w : world table) :
  store (snd (OrmAuth.post_login u p w)) = store w.
Proof.
  unfold OrmAuth.post_login.
  destruct (find_by_username u (store w)) as [r|]; [|reflexivity].
  destruct (negb (OrmAuth.checkPassword r p)); reflexivity.
Qed.

Lemma reachable_well_formed t : Spec.reachable t -> Spec.well_formed t.
Proof.
  induction 1 as [|u p sl w _ IH|u p w _ IH].
  - apply well_formed_nil.
  - apply orm_register_well_formed. assumption.
  - rewrite orm_login_store. assumption.
Qed.

(** Registration in the object-literal store, for a name that is neither
    taken nor inherited from [Object.prototype]: exactly one record is
    added, under that name. *)
Lemma mem_register_fresh u p sl (w : world (gmap string MemAuth.user)) :
  store w !! u = None -> Js.inherited u = false ->
  MemAuth.post_register u p sl w
  = (Redirect "/login",
     flash "success" "Registration successful! Please log in."
       (with_store (<[u := MemAuth.User (argon2_hash sl p)]> (store w)) w)).
Proof.
  intros Hnone Hni. unfold MemAuth.post_register, Js.get.
  rewrite Hnone, Hni. reflexivity.
Qed.

Lemma mem_register_fresh_frame u p sl (w : world (gmap string MemAuth.user)) :
  store w !! u = None -> Js.inherited u = false ->
  let w' := snd (MemAuth.post_register u p sl w) in
  store w' !! u = Some (MemAuth.User (argon2_hash sl p)) /\
  (forall other, other ≠ u -> store w' !! other = store w !! other) /\
  size (store w') = S (size (store w)).
Proof.
  intros Hnone Hni. rewrite (mem_register_fresh _ _ _ _ Hnone Hni). simpl.
  split; [apply lookup_insert_eq|]. split.
  - intros other Hne. apply lookup_insert_ne. congruence.
  - apply map_size_insert_None. assumption.
Qed.

(** C1, at the failing input: in the object-literal store a name such as
    [constructor] is found through the prototype, so the registration is
    refused as a duplicate although no user has that name, and no record
    is added. *)
Theorem mem_register_refuses_inherited_name (password : string) (sl : salt) :
  let w := World MemAuth.users Session.empty in
  store w !! "constructor" = None /\
  MemAuth.post_register "constructor" password sl w
  = (Redirect "/register", flash "danger" "Username already exists!" w).
Proof. split; reflexivity. Qed.

(** C3: no two rows of a reachable user table share a username, and a
    registration under a username that is already taken leaves the store
    as it was, flashes the danger message "Username already exists!" and
    redirects to /register, in the ORM-backed routes and in the
    object-literal store alike. *)
Theorem username_is_unique_key :
  (forall t, Spec.reachable t -> NoDup (username <$> t)) /\
  (forall (users : gmap string MemAuth.user) u r1 r2,
      Js.get users u = Js.Own r1 -> Js.get users u = Js.Own r2 -> r1 = r2) /\
  (forall u p sl (w : world table),
      u ∈ username <$> store w ->
      OrmAuth.post_register u p sl w
      = (Redirect "/register", flash "danger" "Username already exists!" w)) /\
  (forall u p sl (w : world (gmap string MemAuth.user)) r,
      store w !! u = Some r ->
      MemAuth.post_register u p sl w
      = (Redirect "/register", flash "danger" "Username already exists!" w)).
Proof.
  split; [|split; [|split]].
  - intros t Hr. apply reachable_well_formed in Hr as [Hnd _]. assumption.
  - intros users u r1 r2 H1 H2. congruence.
  - intros u p sl w. apply orm_register_taken.
  - intros u p sl w r Hr. unfold MemAuth.post_register, Js.get.
    rewrite Hr. reflexivity.
Qed.

End RegisterFacts.

Lemma username_is_unique_key_witness :
  let w0 := Http.World ([] : UserTable.table) Session.empty in
  let w1 := snd (@OrmAuth.post_register Spec.demo_argon2 "bob" "hunter2" "s1" w0) in
  let w2 := snd (@OrmAuth.post_register Spec.demo_argon2 "eve" "letmein" "s2" w1) in
  @Spec.reachable Spec.demo_argon2 (Http.store w2) /\
  "bob" ∈ UserTable.username <$> Http.store w2 /\
  NoDup (UserTable.username <$> Http.store w2) /\
  @OrmAuth.post_register Spec.demo_argon2 "bob" "again" "s3" w2
  = (Http.Redirect "/register",
     Http.flash "danger" "Username already exists!" w2).
Proof.
  intros w0 w1 w2.
  assert (Hreach : @Spec.reachable Spec.demo_argon2 (Http.store w2)).
  { apply (@Spec.reach_register Spec.demo_argon2 "eve" "letmein" "s2" w1).
    apply (@Spec.reach_register Spec.demo_argon2 "bob" "hunter2" "s1" w0).
    apply (@Spec.reach_init Spec.demo_argon2). }
  assert (Hbob : "bob" ∈ UserTable.username <$> Http.store w2).
  { vm_compute. apply list_elem_of_here. }
  destruct (@username_is_unique_key Spec.demo_argon2)
  as (Hnodup & _ & Htaken & _).
  split; [exact Hreach|]. split; [exact Hbob|].
  split; [exact (Hnodup _ Hreach)|].
  exact (Htaken "bob" "again" "s3" w2 Hbob).
Defined.

(** ** Login *)
Section LoginFacts.
Import Http UserTable.
Context `{Argon2}.

Lemma orm_login_cases u p (w : world table) :
  OrmAuth.post_login u p w
  = match find_by_username u (store w) with
    | Some user =>
        if argon2_verify (password_hash user) p then Spec.accepted user w
        else Spec.refused w
    | None => Spec.refused w
    end.
Proof.
  unfold OrmAuth.post_login, OrmAuth.checkPassword, Spec.accepted, Spec.refused.
  destruct (find_by_username u (store w)) as [user|]; [|reflexivity].
  destruct (argon2_verify (password_hash user) p); reflexivity.
Qed.

Lemma sql_login_cases u p (w : world table) :
  SqlAuth.post_login u p w
  = match find_by_username u (store w) with
    | Some user =>
        if argon2_verify (password_hash user) p then Spec.accepted user w
        else Spec.refused w
    | None => Spec.refused w
    end.
Proof.
  unfold SqlAuth.post_login, SqlAuth.User_findByUsername, Spec.accepted, Spec.refused.
  destruct (find_by_username u (store w)) as [user|]; [|reflexivity].
  destruct (argon2_verify (password_hash user) p); reflexivity.
Qed.

(** C4: when no user has the submitted username, or the password fails
    verification against the stored hash, [POST /login] flashes the
    danger message "Invalid username or password." and redirects to
    /login; the session is left as it was, that is, every session
    variable keeps its value (no [user_id] or [user] is set) and the
    message just flashed is the only thing added; the user table is
    untouched.  The session variables change only when verification
    succeeds, and then [user_id] and [user] are stored. *)
Theorem failed_login_keeps_session_variables (u p : string) (w : world table) :
  ((find_by_username u (store w) = None \/
    exists user, find_by_username u (store w) = Some user /\
                 argon2_verify (password_hash user) p = false) ->
   OrmAuth.post_login u p w = Spec.refused w /\
   SqlAuth.post_login u p w = Spec.refused w /\
   Session.vars (session (snd (OrmAuth.post_login u p w)))
   = Session.vars (session w) /\
   Session.vars (session (snd (SqlAuth.post_login u p w)))
   = Session.vars (session w) /\
   Session.pending "danger" (session (snd (OrmAuth.post_login u p w)))
   = Session.pending "danger" (session w)
     ++ [ "Invalid username or password." ] /\
   store (snd (OrmAuth.post_login u p w)) = store w) /\
  ((Session.vars (session (snd (OrmAuth.post_login u p w)))
    ≠ Session.vars (session w) \/
    Session.vars (session (snd (SqlAuth.post_login u p w)))
    ≠ Session.vars (session w)) ->
   exists user,
     find_by_username u (store w) = Some user /\
     argon2_verify (password_hash user) p = true /\
     OrmAuth.post_login u p w = Spec.accepted user w /\
     SqlAuth.post_login u p w = Spec.accepted user w /\
     Session.get "user_id" (session (snd (Spec.accepted (V := OrmAuth.view) user w)))
     = Some (Session.Num (id user)) /\
     Session.get "user" (session (snd (Spec.accepted (V := OrmAuth.view) user w)))
     = Some (Session.Str (username user))).
Proof.
  rewrite orm_login_cases, sql_login_cases. split.
  - intros [-> | (user & -> & ->)]; unfold Spec.refused; simpl;
      unfold Session.pending; simpl; rewrite lookup_insert_eq;
      repeat split; reflexivity.
  - destruct (find_by_username u (store w)) as [user|].
    + destruct (argon2_verify (password_hash user) p) eqn:Hv.
      * intros _. exists user. repeat split; try reflexivity.
        -- exact Hv.
        -- unfold Spec.accepted, Session.get. simpl.
           rewrite lookup_insert_ne by discriminate.
           apply lookup_insert_eq.
        -- unfold Spec.accepted, Session.get. simpl.
           apply lookup_insert_eq.
      * intros [Hne | Hne]; exfalso; apply Hne; reflexivity.
    + intros [Hne | Hne]; exfalso; apply Hne; reflexivity.
Qed.

End LoginFacts.

Lemma failed_login_keeps_session_variables_witness :
  let w0 := Http.World ([] : UserTable.table) Session.empty in
  let w := snd (@OrmAuth.post_register Spec.demo_argon2 "bob" "hunter2" "s1" w0) in
  (exists user,
      UserTable.find_by_username "bob" (Http.store w) = Some user /\
      @argon2_verify Spec.demo_argon2 (UserTable.password_hash user) "guess"
      = false) /\
  @OrmAuth.post_login Spec.demo_argon2 "bob" "guess" w = Spec.refused w /\
  Session.vars (Http.session
                  (snd (@OrmAuth.post_login Spec.demo_argon2 "bob" "guess" w)))
  = Session.vars (Http.session w).
Proof.
  intros w0 w.
  assert (Hbad : exists user,
             UserTable.find_by_username "bob" (Http.store w) = Some user /\
             @argon2_verify Spec.demo_argon2 (UserTable.password_hash user)
                            "guess" = false).
  { eexists. split; vm_compute; reflexivity. }
  split; [exact Hbad|].
  destruct (@failed_login_keeps_session_variables Spec.demo_argon2
              "bob" "guess" w) as [Hrefused _].
  destruct (Hrefused (or_intror Hbad)) as (Horm & _ & Hvars & _).
  split; [exact Horm|exact Hvars].
Defined.

(** ** The validated contact form *)
Section ContactFacts.
Import Schema Contact.
Context `{Csrf}.

Lemma validate_contact_rejects body :
  Spec.rejected_body body -> validate contactSchema body ≠ [].
Proof.
  unfold Spec.rejected_body, validate, contactSchema. simpl.
  unfold check_required, check_property, check_string. simpl.
  intros Hrej.
  destruct (body !! "name") as [name|]; [|discriminate].
  destruct (body !! "message") as [message|]; [|discriminate].
  destruct (body !! "_csrf") as [token|]; [|discriminate].
  destruct (Nat.ltb_spec 25 (JsString.characters name)); [discriminate|].
  destruct (Nat.ltb_spec (JsString.characters name) 3); [discriminate|].
  destruct (Nat.ltb_spec 200 (JsString.characters message)); [discriminate|].
  exfalso.
  destruct Hrej as [Hn | [Hm | [Hc | [(n & [= <-] & Hlen)
                                      | (m & [= <-] & Hlen)]]]];
    try discriminate; lia.
Qed.

Lemma validate_contact_accepts body name message token :
  body !! "name" = Some name -> body !! "message" = Some message ->
  body !! "_csrf" = Some token ->
  3 <= JsString.characters name <= 25 -> JsString.characters message <= 200 ->
  validate contactSchema body = [].
Proof.
  intros Hn Hm Hc Hname Hmessage.
  unfold validate, contactSchema. simpl.
  unfold check_required, check_property, check_string. simpl.
  rewrite Hn, Hm, Hc.
  destruct (Nat.ltb_spec 25 (JsString.characters name)); [lia|].
  destruct (Nat.ltb_spec (JsString.characters name) 3); [lia|].
  destruct (Nat.ltb_spec 200 (JsString.characters message)); [lia|].
  reflexivity.
Qed.

(** C6: a [POST /contact_csrf] whose body lacks [name], [message] or
    [_csrf], or whose name has fewer than 3 or more than 25 characters,
    or whose message has more than 200, never reaches the route's
    handler: nothing is logged, and the error handler renders the
    [contact_csrf] view with the validation errors and a token it has
    just generated.  The lengths are numbers of characters, not of
    bytes. *)
Theorem invalid_contact_is_rejected (body : gmap string string) (a : app) :
  Spec.rejected_body body ->
  validate contactSchema body ≠ [] /\
  post_contact_csrf body a
  = (view (ContactCsrf (Some (validate contactSchema body)) None
                       (fst (generateCsrf (csrf a)))),
     App (log a) (snd (generateCsrf (csrf a)))) /\
  log (snd (post_contact_csrf body a)) = log a.
Proof.
  intros Hrej. pose proof (validate_contact_rejects _ Hrej) as Hne.
  split; [assumption|].
  unfold post_contact_csrf.
  destruct (validate contactSchema body) as [|e errs]; [congruence|].
  unfold errorHandler.
  destruct (generateCsrf (csrf a)) as [token st]. simpl.
  split; reflexivity.
Qed.

(** An accepted body does reach the handler, which logs one line. *)
Lemma valid_contact_is_logged body name message token (a : app) :
  body !! "name" = Some name -> body !! "message" = Some message ->
  body !! "_csrf" = Some token ->
  3 <= JsString.characters name <= 25 -> JsString.characters message <= 200 ->
  log (snd (post_contact_csrf body a))
  = log a ++ [ "Received from " +:+ name +:+ ": " +:+ message ].
Proof.
  intros Hn Hm Hc Hname Hmessage. unfold post_contact_csrf.
  rewrite (validate_contact_accepts _ _ _ _ Hn Hm Hc Hname Hmessage).
  unfold post_contact_csrf_handler. rewrite Hn, Hm. simpl.
  destruct (generateCsrf (csrf a)). reflexivity.
Qed.

End ContactFacts.

(** A name of nine characters in 27 bytes is within the bounds: the
    submission is logged. *)
Example contact_counts_characters :
  let name := "春夏秋冬春夏秋冬春" in
  let body : gmap string string :=
    {[ "name" := name; "message" := "hello"; "_csrf" := "token-0" ]} in
  String.length name = 27 /\ JsString.characters name = 9 /\
  Schema.validate Contact.contactSchema body = [] /\
  Contact.log (snd (@Contact.post_contact_csrf Spec.demo_csrf body
                      (@Contact.App Spec.demo_csrf [] 7)))
  = [ "Received from " +:+ name +:+ ": hello" ].
Proof. vm_compute. auto. Qed.

Lemma invalid_contact_is_rejected_witness :
  let body : gmap string string :=
    {[ "name" := "李明"; "message" := "hello"; "_csrf" := "token-0" ]} in
  let a := @Contact.App Spec.demo_csrf [] 7 in
  String.length "李明" = 6 /\
  Spec.rejected_body body /\
  @Contact.post_contact_csrf Spec.demo_csrf body a
  = (Contact.view
       (Contact.ContactCsrf (Some [ Schema.TooShort "name" 3 ]) None "token-7"),
     @Contact.App Spec.demo_csrf [] 8).
Proof.
  intros body a.
  assert (Hrej : Spec.rejected_body body).
  { right. right. right. left. exists "李明".
    split; [vm_compute; reflexivity|]. left. vm_compute. lia. }
  split; [reflexivity|]. split; [exact Hrej|].
  destruct (@invalid_contact_is_rejected Spec.demo_csrf body a Hrej)
    as (_ & Hreply & _).
  etransitivity; [exact Hreply|]. vm_compute. reflexivity.
Defined.

(** ** The book lookup *)
Section BookFacts.
Import Books.

Lemma repeated_is_not_true a b rest :
  String.eqb (JsString.join "," (a :: b :: rest)) "true" = false.
Proof.
  apply String.eqb_neq. intros Heq.
  assert (Hc : JsString.includes ","
                 (JsString.join "," (a :: b :: rest)) = true).
  { change (JsString.join "," (a :: b :: rest))
      with (a +:+ String "," (JsString.join "," (b :: rest))).
    apply includes_app_separator. }
  rewrite Heq in Hc. discriminate.
Qed.

Lemma loose_eq_true p : loose_eq p "true" = true <-> p = Single "true".
Proof.
  destruct p as [|v|a b rest]; unfold loose_eq.
  - split; discriminate.
  - rewrite String.eqb_eq. split; congruence.
  - rewrite repeated_is_not_true. split; discriminate.
Qed.

(** For an id that is not a property name inherited from
    [Object.prototype] the route behaves as described: an unknown id
    gives 404 only when [summary] is the string [true] and the error body
    with status 200 otherwise; a known id gives its title and author, or
    the whole record. *)
Lemma get_book_by_own_key bookId :
  Js.inherited bookId = false ->
  get_book bookId (Single "true")
  = match booksDb !! bookId with
    | None => Reply 404 (error "Book not found")
    | Some b => Reply 200 (summary_of (Some (title b)) (Some (author b)))
    end /\
  (forall summary,
      summary ≠ Single "true" ->
      get_book bookId summary
      = match booksDb !! bookId with
        | None => Reply 200 (error "Book not found")
        | Some b => Reply 200 (full b)
        end).
Proof.
  intros Hni. unfold get_book, Js.get. split.
  - simpl. destruct (booksDb !! bookId); [reflexivity|].
    rewrite Hni. reflexivity.
  - intros summary Hne.
    pose proof (loose_eq_true summary) as Hle.
    destruct (loose_eq summary "true").
    + exfalso. apply Hne, Hle. reflexivity.
    + destruct (booksDb !! bookId); [reflexivity|].
      rewrite Hni. reflexivity.
Qed.

(** C10, at the failing input: [constructor] is not the id of a book, yet
    the lookup finds the function inherited from [Object.prototype];
    the reply is neither the 404 nor the error body. *)
Theorem get_book_inherited_key :
  booksDb !! "constructor" = None /\
  get_book "constructor" Absent = Reply 200 (builtin "constructor") /\
  get_book "constructor" (Single "true") = Reply 200 (summary_of None None).
Proof. split; [|split]; vm_compute; reflexivity. Qed.

End BookFacts.

(** * Further properties of the routes *)

(** Resolve a lookup in a flash store built from inserts and deletes at
    literal categories. *)
Ltac flash_lookup :=
  repeat first
    [ rewrite lookup_insert_eq
    | rewrite lookup_delete_eq
    | rewrite lookup_insert_ne by discriminate
    | rewrite lookup_delete_ne by discriminate
    | progress (unfold Session.pending; simpl) ];
  reflexivity.

(** ** Registering, logging in and logging out *)
Section SessionFlows.
Import Http.
Context `{Argon2}.

Lemma truthy_nonempty u :
  u ≠ "" -> Session.truthy (Some (Session.Str u)) = true.
Proof.
  intros Hne. simpl. apply negb_true_iff, String.eqb_neq. assumption.
Qed.

(** X1: in the object-literal store, registering a fresh, non-empty name
    that is not inherited from [Object.prototype] and then logging in with
    the same password stores the name as [user] in the session and
    redirects to /, after which the guarded [GET /profile] renders the
    profile of that name; logging in leaves the user store as the
    registration left it. *)
Theorem mem_register_then_login_opens_profile
    (u p : string) (sl : salt) (w : world (gmap string MemAuth.user)) :
  store w !! u = None -> Js.inherited u = false -> u ≠ "" ->
  argon2_verify (argon2_hash sl p) p = true ->
  let w1 := snd (MemAuth.post_register u p sl w) in
  let w2 := snd (MemSession.post_login u p w1) in
  fst (MemAuth.post_register u p sl w) = Redirect "/login" /\
  fst (MemSession.post_login u p w1) = Redirect "/" /\
  Session.get "user" (session w2) = Some (Session.Str u) /\
  store w2 = store w1 /\
  fst (MemAuth.get_profile w2) = View (MemAuth.profile (Some (Session.Str u))).
Proof.
  intros Hfree Hni Hne Hok w1 w2. subst w2 w1.
  rewrite (mem_register_fresh _ _ _ _ Hfree Hni). simpl.
  unfold MemSession.post_login, Js.get. simpl.
  rewrite lookup_insert_eq. simpl. rewrite Hok. simpl.
  split; [reflexivity|]. split; [reflexivity|].
  assert (Hget : Session.get "user"
                   (Session.set "user" (Session.Str u) (session w))
                 = Some (Session.Str u)).
  { unfold Session.get, Session.set. simpl. apply lookup_insert_eq. }
  split; [exact Hget|]. split; [reflexivity|].
  unfold MemAuth.get_profile, Auth.loginRequired. simpl.
  unfold Session.get in *. simpl in *. rewrite Hget.
  rewrite (truthy_nonempty _ Hne). reflexivity.
Qed.

(** X2: the empty string can be registered as a username and its login is
    accepted, but the session then holds a falsy [user], so the guarded
    [GET /profile] still answers with the redirect to /login. *)
Theorem mem_empty_username_is_never_logged_in
    (p : string) (sl : salt) (w : world (gmap string MemAuth.user)) :
  store w !! "" = None ->
  argon2_verify (argon2_hash sl p) p = true ->
  let w1 := snd (MemAuth.post_register "" p sl w) in
  let w2 := snd (MemSession.post_login "" p w1) in
  store w1 !! "" = Some (MemAuth.User (argon2_hash sl p)) /\
  fst (MemSession.post_login "" p w1) = Redirect "/" /\
  fst (MemAuth.get_profile w2) = Redirect "/login".
Proof.
  intros Hfree Hok w1 w2. subst w2 w1.
  rewrite (mem_register_fresh _ _ _ _ Hfree eq_refl). simpl.
  rewrite lookup_insert_eq. split; [reflexivity|].
  unfold MemSession.post_login, Js.get. simpl.
  rewrite lookup_insert_eq. simpl. rewrite Hok. simpl.
  split; [reflexivity|].
  unfold MemAuth.get_profile, Auth.loginRequired, Session.get. simpl.
  rewrite lookup_insert_eq. reflexivity.
Qed.

(** X3: no login route writes to the user store: whatever the credentials,
    the store after [POST /login] is the store before, in the
    object-literal, ORM, raw-SQL and wiki variants. *)
Theorem login_never_writes_users (u p : string) :
  (forall w, store (snd (MemSession.post_login u p w)) = store w) /\
  (forall w, store (snd (OrmAuth.post_login u p w)) = store w) /\
  (forall w, store (snd (SqlAuth.post_login u p w)) = store w) /\
  (forall w, store (snd (WikiAuth.post_login u p w)) = store w).
Proof.
  split; [|split; [|split]]; intros w.
  - unfold MemSession.post_login.
    destruct (Js.get (store w) u) as [user| |]; try reflexivity.
    destruct (negb (argon2_verify (MemAuth.passwordHash user) p)); reflexivity.
  - apply orm_login_store.
  - rewrite sql_login_cases.
    destruct (UserTable.find_by_username u (store w)) as [user|]; [|reflexivity].
    destruct (argon2_verify (UserTable.password_hash user) p); reflexivity.
  - unfold WikiAuth.post_login.
    destruct (Js.get (Wiki.users (store w)) u) as [user| |]; try reflexivity.
    destruct (argon2_verify (Wiki.password user) p); reflexivity.
Qed.


End SessionFlows.

(** ** The user table across registrations *)
Section TableFlows.
Import Http UserTable.
Context `{Argon2}.

Lemma find_by_username_snoc name t r :
  name ∉ username <$> t -> username r = name ->
  find_by_username name (t ++ [r]) = Some r.
Proof.
  intros Hfresh Hr. unfold find_by_username.
  induction t as [|r' t IH]; simpl.
  - rewrite Hr, String.eqb_refl. reflexivity.
  - rewrite fmap_cons, not_elem_of_cons in Hfresh.
    destruct Hfresh as [Hne Hfresh].
    destruct (String.eqb_spec (username r') name) as [Heq|_]; [congruence|].
    apply IH. assumption.
Qed.

(** X5: in the ORM-backed routes, registering a username that is not yet in
    a well-formed table and then logging in with the same password is
    accepted: the session receives the id of the new row, which is the
    number of rows, as [user_id] and the username as [user], and the reply
    redirects to /.  A password that fails verification against the new
    hash is refused. *)
Theorem orm_register_then_login (u p : string) (sl : salt) (w : world table) :
  Spec.well_formed (store w) -> u ∉ username <$> store w ->
  argon2_verify (argon2_hash sl p) p = true ->
  let w1 := snd (OrmAuth.post_register u p sl w) in
  let new_id := Z.of_nat (S (length (store w))) in
  OrmAuth.post_login u p w1
  = (Redirect "/",
     flash "success" "Logged in successfully!"
       (session_set "user" (Session.Str u)
          (session_set "user_id" (Session.Num new_id) w1))) /\
  Z.of_nat (length (store w1)) = new_id /\
  (forall p', argon2_verify (argon2_hash sl p) p' = false ->
              OrmAuth.post_login u p' w1 = Spec.refused w1).
Proof.
  intros Hwf Hfresh Hok w1 new_id. subst w1.
  rewrite (orm_register_fresh _ _ _ _ Hwf Hfresh). simpl.
  rewrite !orm_login_cases. simpl.
  rewrite (find_by_username_snoc u (store w)
             (Row (Z.of_nat (S (length (store w)))) u (argon2_hash sl p))
             Hfresh eq_refl). simpl.
  rewrite Hok. split; [reflexivity|]. split.
  - rewrite length_app. simpl. subst new_id. lia.
  - intros p' Hbad. rewrite orm_login_cases. simpl.
    rewrite (find_by_username_snoc u (store w)
               (Row (Z.of_nat (S (length (store w)))) u (argon2_hash sl p))
               Hfresh eq_refl). simpl.
    rewrite Hbad. reflexivity.
Qed.

Lemma numbered_and_hashed_snoc t name sl p :
  Inv.numbered_and_hashed t ->
  Inv.numbered_and_hashed
    (t ++ [Row (Z.of_nat (S (length t))) name (argon2_hash sl p)]).
Proof.
  intros [Hnum Hhash]. split.
  - intros i r Hi. apply lookup_app_Some in Hi as [Hi | [Hge Hi]].
    + apply Hnum. assumption.
    + apply list_lookup_singleton_Some in Hi as [Hi <-]. simpl.
      f_equal. lia.
  - intros r Hr. apply elem_of_app in Hr as [Hr | Hr].
    + apply Hhash. assumption.
    + apply list_elem_of_singleton in Hr as ->. simpl. eauto.
Qed.

Lemma reachable_numbered_and_hashed t :
  Spec.reachable t -> Inv.numbered_and_hashed t.
Proof.
  induction 1 as [|u p sl w Hr IH|u p w _ IH].
  - split.
    + intros i r Hi. destruct i; discriminate Hi.
    + intros r Hr. inversion Hr.
  - destruct (find_by_username u (store w)) as [r|] eqn:Hf.
    + unfold OrmAuth.post_register. rewrite Hf. assumption.
    + apply find_by_username_None in Hf.
      rewrite (orm_register_fresh _ _ _ _ (reachable_well_formed _ Hr) Hf).
      simpl. apply numbered_and_hashed_snoc. assumption.
  - rewrite orm_login_store. assumption.
Qed.

(** X6: in every user table the ORM-backed routes can reach, the row at
    position i (counting from 0) has id i + 1, so ids are pairwise distinct
    and an id identifies one user. *)
Theorem reachable_ids_are_consecutive (t : table) :
  Spec.reachable t ->
  (forall i r, t !! i = Some r -> id r = Z.of_nat (S i)) /\
  NoDup (id <$> t).
Proof.
  intros Hr. destruct (reachable_numbered_and_hashed _ Hr) as [Hnum _].
  split; [assumption|].
  apply NoDup_alt. intros i j x Hi Hj.
  apply list_lookup_fmap_Some in Hi as (ri & -> & Hi).
  apply list_lookup_fmap_Some in Hj as (rj & Heq & Hj).
  rewrite (Hnum _ _ Hi), (Hnum _ _ Hj) in Heq. lia.
Qed.

(** X7: every password hash found in a reachable user table was produced by
    [argon2.hash] from some salt and password: the routes never store
    anything else in the [password_hash] column. *)
Theorem reachable_hashes_come_from_argon2 (t : table) :
  Spec.reachable t ->
  forall r, r ∈ t -> exists sl p, password_hash r = argon2_hash sl p.
Proof.
  intros Hr. apply (reachable_numbered_and_hashed _ Hr).
Qed.

End TableFlows.

(** ** The wiki from registration to upload *)
Section WikiFlows.
Import Http.
Context `{Argon2}.

Lemma get_profile_logged_in (w : world Wiki.app) :
  Session.truthy (Session.get "username" (session w)) = true ->
  Wiki.get_profile w
  = (View (Wiki.profile
             (Js.get (Wiki.users (store w))
                     (Session.to_key (Session.get "username" (session w))))
             (Flash.tagged "danger" (session w)
              ++ Flash.tagged "success" (session w)
              ++ Flash.tagged "info" (session w))),
     World (store w)
           (Session.Make (Session.vars (session w))
              (delete "info" (delete "success" (delete "danger"
                 (Session.flash (session w))))))).
Proof.
  intros Hin. unfold Wiki.get_profile, Wiki.collect.
  rewrite Hin, collectMessages_unfold. reflexivity.
Qed.

Lemma wiki_register_fresh u p sl (w : world Wiki.app) :
  Wiki.users (store w) !! u = None -> Js.inherited u = false ->
  WikiAuth.post_register u p sl w
  = (Redirect "/login",
     flash "success" "Registration successful! Please log in."
       (with_store
          (Wiki.set_users
             (<[u := Wiki.User (argon2_hash sl p) None]> (Wiki.users (store w)))
             (store w)) w)).
Proof.
  intros Hfree Hni. unfold WikiAuth.post_register, Js.get.
  rewrite Hfree, Hni. reflexivity.
Qed.

(** X8: in the wiki, a fresh non-empty username that is not inherited from
    [Object.prototype] can register, log in with the same password (the
    session then holds it as [username] and the reply redirects to /home)
    and create a page, and the stored page names that user as its author;
    the new user starts without an avatar. *)
Theorem wiki_register_login_create
    (u p t c : string) (sl : salt) (w : world Wiki.app) :
  Wiki.users (store w) !! u = None -> Js.inherited u = false -> u ≠ "" ->
  argon2_verify (argon2_hash sl p) p = true ->
  let w1 := snd (WikiAuth.post_register u p sl w) in
  let w2 := snd (WikiAuth.post_login u p w1) in
  let w3 := snd (Wiki.post_create t c w2) in
  Wiki.users (store w1) !! u = Some (Wiki.User (argon2_hash sl p) None) /\
  fst (WikiAuth.post_login u p w1) = Redirect "/home" /\
  Session.get "username" (session w2) = Some (Session.Str u) /\
  fst (Wiki.post_create t c w2) = Redirect ("/wiki/" +:+ t) /\
  Js.record_at (Wiki.pages (store w3)) t
  = Some (Wiki.Page c (Some (Session.Str u)) None).
Proof.
  intros Hfree Hni Hne Hok w1 w2 w3. subst w3 w2 w1.
  rewrite (wiki_register_fresh _ _ _ _ Hfree Hni). simpl.
  rewrite lookup_insert_eq. split; [reflexivity|].
  unfold WikiAuth.post_login, Js.get. simpl.
  rewrite lookup_insert_eq. simpl. rewrite Hok. simpl.
  split; [reflexivity|].
  assert (Hget : Session.get "username"
                   (Session.set "username" (Session.Str u) (session w))
                 = Some (Session.Str u)).
  { unfold Session.get, Session.set. simpl. apply lookup_insert_eq. }
  split; [exact Hget|].
  unfold Wiki.post_create. simpl.
  unfold Session.get in *. simpl in *. rewrite Hget.
  rewrite (truthy_nonempty _ Hne). simpl.
  split; [reflexivity|]. apply record_at_set_eq.
Qed.

(** X9: an accepted upload (a file of at most 5 MB with an allowed name)
    by a user who has a record is visible on the next [GET /profile]: the
    view shows the record with the new avatar name and the pending
    messages, "Avatar updated!" being the last success message; reading
    them clears them, so one more [GET /profile] shows the same record
    with no message. *)
Theorem upload_shows_on_profile_once
    (file : Wiki.file) (now : Z) (u : Wiki.user) (w : world Wiki.app) :
  Session.truthy (Session.get "username" (session w)) = true ->
  Spec.within_limit file ->
  Multipart.allowedFile (Wiki.filename file) = true ->
  Wiki.users (store w) !! Session.to_key (Session.get "username" (session w))
  = Some u ->
  let u' := Wiki.User (Wiki.password u) (Some (Spec.stored_name now file)) in
  let w1 := snd (Wiki.post_profile_request
                   (Some (Wiki.file_part file)) now w) in
  let w2 := snd (Wiki.get_profile w1) in
  fst (Wiki.get_profile w1)
  = View (Wiki.profile (Js.Own u')
            (Flash.tagged "danger" (session w)
             ++ (Flash.tagged "success" (session w)
                 ++ [ Flash.Message "success" "Avatar updated!" ])
             ++ Flash.tagged "info" (session w))) /\
  fst (Wiki.get_profile w2) = View (Wiki.profile (Js.Own u') []) /\
  store w2 = store w1.
Proof.
  intros Hin Hsize Hok Hu u' w1 w2.
  pose proof (post_profile_allowed file now w Hin Hok) as Hpost.
  rewrite <- (post_profile_request_within _ _ _ Hsize) in Hpost.
  simpl in Hpost. rewrite Hu in Hpost.
  fold u' in Hpost.
  set (st := Wiki.set_users _ _) in Hpost.
  assert (Hw1 : w1 = flash "success" "Avatar updated!"
                       (World st (session w))).
  { subst w1. rewrite Hpost. reflexivity. }
  clearbody w1. subst w1. clear Hpost. subst w2.
  rewrite (get_profile_logged_in (flash "success" "Avatar updated!"
                                        (World st (session w)))) by exact Hin.
  simpl.
  rewrite get_profile_logged_in by exact Hin. simpl.
  unfold Js.get, Session.get. simpl Session.vars.
  rewrite !lookup_insert_eq.
  unfold Flash.tagged, Session.pending. simpl Session.flash.
  split; [|split; [|reflexivity]].
  - rewrite lookup_insert_eq, !lookup_insert_ne by discriminate. simpl.
    rewrite fmap_app. reflexivity.
  - rewrite !lookup_delete_ne, lookup_delete_eq by discriminate.
    rewrite lookup_delete_ne, lookup_delete_eq by discriminate.
    rewrite lookup_delete_eq. reflexivity.
Qed.

End WikiFlows.

(** ** Flash messages across requests *)
Section FlashFlows.
Import Http.

Lemma get_create_cases (w : world Wiki.app) :
  let w1 := World (store w)
              (Session.Make (Session.vars (session w))
                 (delete "info" (delete "success" (delete "danger"
                    (Session.flash (session w)))))) in
  Wiki.get_create w
  = if negb (Session.truthy (Session.get "username" (session w))) then
      (Redirect "/login",
       flash "danger" "You must be logged in to create a page." w1)
    else
      (View (Wiki.create_page
               (Flash.tagged "danger" (session w)
                ++ Flash.tagged "success" (session w)
                ++ Flash.tagged "info" (session w))), w1).
Proof.
  unfold Wiki.get_create, Wiki.collect.
  rewrite collectMessages_unfold. reflexivity.
Qed.

(** X10: [GET /create] reads the flash messages before it checks the
    session, so for a visitor who is not logged in the pending danger,
    success and info messages are dropped unseen and only the new danger
    message stays pending; [POST /create] in the same situation keeps what
    was pending and adds its message. *)
Theorem unauthenticated_get_create_drops_messages (w : world Wiki.app) :
  Session.truthy (Session.get "username" (session w)) = false ->
  let w' := snd (Wiki.get_create w) in
  fst (Wiki.get_create w) = Redirect "/login" /\
  Session.pending "danger" (session w')
  = [ "You must be logged in to create a page." ] /\
  Session.pending "success" (session w') = [] /\
  Session.pending "info" (session w') = [] /\
  store w' = store w /\
  (forall title content,
      let w'' := snd (Wiki.post_create title content w) in
      Session.pending "danger" (session w'')
      = Session.pending "danger" (session w)
        ++ [ "You must be logged in to create a page." ] /\
      Session.pending "success" (session w'')
      = Session.pending "success" (session w) /\
      Session.pending "info" (session w'')
      = Session.pending "info" (session w)).
Proof.
  intros Hout w'. subst w'.
  rewrite get_create_cases. simpl. rewrite Hout. simpl.
  unfold Session.pending. simpl.
  split; [reflexivity|]. split; [flash_lookup|]. split; [flash_lookup|].
  split; [flash_lookup|]. split; [reflexivity|].
  intros title content. unfold Wiki.post_create. rewrite Hout. simpl.
  repeat split; flash_lookup.
Qed.

(** X11: a message is returned by [collectMessages] exactly when its
    category is danger, success or info and its text is pending under that
    category; a message pending under any other category is not returned
    and stays pending. *)
Theorem collectMessages_returns_three_categories (s : Session.t) :
  (forall m,
      m ∈ fst (Flash.collectMessages s) <->
      Flash.category m ∈ Flash.categories /\
      Flash.text m ∈ Session.pending (Flash.category m) s) /\
  (forall c, c ∉ Flash.categories ->
             Session.pending c (snd (Flash.collectMessages s))
             = Session.pending c s).
Proof.
  rewrite collectMessages_unfold. simpl. split.
  - intros [c t]. unfold Flash.tagged, Flash.categories. simpl.
    rewrite !elem_of_app, !list_elem_of_fmap, !elem_of_cons, elem_of_nil.
    split.
    + intros [(x & [= -> ->] & Hx) | [(x & [= -> ->] & Hx)
                                     | (x & [= -> ->] & Hx)]]; tauto.
    + intros [[-> | [-> | [-> | []]]] Ht]; eauto 6.
  - intros c Hc. unfold Flash.categories in Hc.
    rewrite !not_elem_of_cons in Hc. destruct Hc as (Hd & Hs & Hi & _).
    unfold Session.pending. simpl.
    rewrite !lookup_delete_ne by congruence. reflexivity.
Qed.

(** X12: an upload that passes the checks (a file of at most 5 MB with
    an allowed name) writes exactly one file: the path made of the upload
    folder, the time and the client's file name then holds the uploaded
    bytes, replacing what was there, and every other file is as it was;
    this also when the session's user has no record and the handler then
    throws.  An upload that is missing, has a refused extension or is
    larger than 5 MB writes nothing. *)
Theorem upload_writes_one_file
    (avatar : option Wiki.part) (now : Z) (w : world Wiki.app) :
  Session.truthy (Session.get "username" (session w)) = true ->
  let w' := snd (Wiki.post_profile_request avatar now w) in
  (forall file,
      avatar = Some (Wiki.file_part file) ->
      Spec.within_limit file ->
      Multipart.allowedFile (Wiki.filename file) = true ->
      Wiki.disk (store w')
      = Wiki.disk (Wiki.writeFile (Spec.stored_path now file)
                                  (Wiki._buf file) (store w)) /\
      Wiki.readFile (Spec.stored_path now file) (store w')
      = Some (Wiki._buf file) /\
      (forall path, path ≠ Spec.stored_path now file ->
                    Wiki.readFile path (store w')
                    = Wiki.readFile path (store w))) /\
  (forall file,
      avatar = Some (Wiki.file_part file) ->
      Spec.within_limit file ->
      Multipart.allowedFile (Wiki.filename file) = true ->
      Js.get (Wiki.users (store w))
             (Session.to_key (Session.get "username" (session w)))
      = Js.Undefined ->
      fst (Wiki.post_profile_request avatar now w) = Throw "TypeError") /\
  (avatar = None -> Wiki.disk (store w') = Wiki.disk (store w)) /\
  (forall file,
      avatar = Some (Wiki.file_part file) ->
      Spec.within_limit file ->
      Multipart.allowedFile (Wiki.filename file) = false ->
      Wiki.disk (store w') = Wiki.disk (store w)) /\
  (forall file,
      avatar = Some (Wiki.file_part file) ->
      ~ Spec.within_limit file ->
      Wiki.disk (store w') = Wiki.disk (store w)).
Proof.
  intros Hin w'. subst w'.
  assert (Hdisk : forall file,
             avatar = Some (Wiki.file_part file) ->
             Spec.within_limit file ->
             Multipart.allowedFile (Wiki.filename file) = true ->
             Wiki.disk (store (snd (Wiki.post_profile_request avatar now w)))
             = Wiki.disk (Wiki.writeFile (Spec.stored_path now file)
                                         (Wiki._buf file) (store w))).
  { intros file -> Hsize Hok.
    rewrite (post_profile_request_within _ _ _ Hsize),
            (post_profile_allowed file now w Hin Hok).
    destruct (Wiki.users (store w) !! _); [reflexivity|].
    destruct (Js.inherited _); reflexivity. }
  split; [|split; [|split; [|split]]].
  - intros file Hav Hsize Hok.
    pose proof (Hdisk file Hav Hsize Hok) as Hd.
    split; [exact Hd|]. unfold Wiki.readFile at 1. rewrite Hd.
    split; [apply readFile_writeFile_eq|].
    intros path Hne. unfold Wiki.readFile at 1. rewrite Hd.
    apply (readFile_writeFile_ne _ _ _ _ Hne).
  - intros file -> Hsize Hok Hundef.
    rewrite (post_profile_request_within _ _ _ Hsize),
            (post_profile_allowed file now w Hin Hok).
    unfold Js.get in Hundef.
    destruct (Wiki.users (store w) !! _); [discriminate|].
    destruct (Js.inherited _); [discriminate|reflexivity].
  - intros ->. unfold Wiki.post_profile_request, Wiki.post_profile.
    cbn [Wiki.too_large]. rewrite Hin. reflexivity.
  - intros file -> Hsize Hbad.
    rewrite (post_profile_request_within _ _ _ Hsize).
    unfold Wiki.post_profile. rewrite Hin, Hbad. reflexivity.
  - intros file -> Hsize.
    rewrite (post_profile_request_too_large _ _ _ Hsize). reflexivity.
Qed.

(** X13: a second accepted upload by the same user replaces the avatar
    reference with the newer file's name, and the newer file is under the
    upload folder.  When the two stored names differ, the older file is
    still there with its contents: it is not removed.  (When they are
    equal, the one path holds the newer contents.) *)
Theorem second_upload_keeps_first_file
    (f1 f2 : Wiki.file) (t1 t2 : Z) (u : Wiki.user) (w : world Wiki.app) :
  Session.truthy (Session.get "username" (session w)) = true ->
  Spec.within_limit f1 -> Spec.within_limit f2 ->
  Multipart.allowedFile (Wiki.filename f1) = true ->
  Multipart.allowedFile (Wiki.filename f2) = true ->
  let me := Session.to_key (Session.get "username" (session w)) in
  Wiki.users (store w) !! me = Some u ->
  let w1 := snd (Wiki.post_profile_request
                   (Some (Wiki.file_part f1)) t1 w) in
  let w2 := snd (Wiki.post_profile_request
                   (Some (Wiki.file_part f2)) t2 w1) in
  Wiki.users (store w2) !! me
  = Some (Wiki.User (Wiki.password u) (Some (Spec.stored_name t2 f2))) /\
  Wiki.readFile (Spec.stored_path t2 f2) (store w2) = Some (Wiki._buf f2) /\
  (Spec.stored_name t1 f1 ≠ Spec.stored_name t2 f2 ->
   Wiki.readFile (Spec.stored_path t1 f1) (store w2) = Some (Wiki._buf f1)).
Proof.
  intros Hin Hsize1 Hsize2 Hok1 Hok2 me Hu w1 w2.
  pose proof (post_profile_allowed f1 t1 w Hin Hok1) as H1.
  rewrite <- (post_profile_request_within _ _ _ Hsize1) in H1.
  simpl in H1. fold me in H1. rewrite Hu in H1.
  assert (Hin1 : Session.truthy (Session.get "username" (session w1)) = true).
  { subst w1. rewrite H1. exact Hin. }
  assert (Hme1 : Session.to_key (Session.get "username" (session w1)) = me).
  { subst w1. rewrite H1. reflexivity. }
  pose proof (post_profile_allowed f2 t2 w1 Hin1 Hok2) as H2.
  rewrite <- (post_profile_request_within _ _ _ Hsize2) in H2.
  simpl in H2. rewrite Hme1 in H2.
  assert (Hu1 : Wiki.users (store w1) !! me
                = Some (Wiki.User (Wiki.password u)
                                  (Some (Spec.stored_name t1 f1)))).
  { subst w1. rewrite H1. simpl. apply lookup_insert_eq. }
  assert (Hd1 : Wiki.disk (store w1)
                = Wiki.disk (Wiki.writeFile (Spec.stored_path t1 f1)
                                            (Wiki._buf f1) (store w))).
  { subst w1. rewrite H1. reflexivity. }
  rewrite Hu1 in H2. subst w2. rewrite H2. simpl.
  rewrite lookup_insert_eq. split; [reflexivity|].
  change (Wiki.readFile (Spec.stored_path t2 f2)
            (Wiki.writeFile (Spec.stored_path t2 f2) (Wiki._buf f2) (store w1))
          = Some (Wiki._buf f2) /\
          (Spec.stored_name t1 f1 ≠ Spec.stored_name t2 f2 ->
           Wiki.readFile (Spec.stored_path t1 f1)
             (Wiki.writeFile (Spec.stored_path t2 f2) (Wiki._buf f2)
                             (store w1))
           = Some (Wiki._buf f1))).
  split; [apply readFile_writeFile_eq|].
  intros Hne. rewrite readFile_writeFile_ne.
  - unfold Wiki.readFile. rewrite Hd1. apply readFile_writeFile_eq.
  - intros Heq. apply Hne, stored_path_inj, Heq.
Qed.

End FlashFlows.

(** ** The quote-sharing forms *)
Section QuoteFacts.
Import Schema Quotes.
Context `{Csrf}.

Lemma validate_share_iff body :
  validate shareSchema body = [] <->
  exists author text token,
    body !! "author" = Some author /\ body !! "quote" = Some text /\
    body !! "_csrf" = Some token /\
    3 <= JsString.characters author <= 25 /\ 20 <= JsString.characters text <= 300.
Proof.
  unfold validate, shareSchema. simpl.
  unfold check_required, check_property, check_string. simpl.
  destruct (body !! "author") as [author|];
    [|split; [discriminate|intros (?&?&?&[=]&_)]].
  destruct (body !! "quote") as [text|];
    [|split; [discriminate|intros (?&?&?&_&[=]&_)]].
  destruct (body !! "_csrf") as [token|];
    [|split; [discriminate|intros (?&?&?&_&_&[=]&_)]].
  destruct (Nat.ltb_spec 25 (JsString.characters author));
    [split; [discriminate|intros (?&?&?&[= <-]&[= <-]&_&?&?); lia]|].
  destruct (Nat.ltb_spec (JsString.characters author) 3);
    [split; [discriminate|intros (?&?&?&[= <-]&[= <-]&_&?&?); lia]|].
  destruct (Nat.ltb_spec 300 (JsString.characters text));
    [split; [discriminate|intros (?&?&?&[= <-]&[= <-]&_&?&?); lia]|].
  destruct (Nat.ltb_spec (JsString.characters text) 20);
    [split; [discriminate|intros (?&?&?&[= <-]&[= <-]&_&?&?); lia]|].
  split; [|reflexivity]. intros _. exists author, text, token.
  repeat split; try reflexivity; lia.
Qed.

Lemma validate_search_iff body :
  validate searchSchema body = [] <->
  exists author token,
    body !! "author" = Some author /\ body !! "_csrf" = Some token /\
    3 <= JsString.characters author <= 25.
Proof.
  unfold validate, searchSchema. simpl.
  unfold check_required, check_property, check_string. simpl.
  destruct (body !! "author") as [author|];
    [|split; [discriminate|intros (?&?&[=]&_)]].
  destruct (body !! "_csrf") as [token|];
    [|split; [discriminate|intros (?&?&_&[=]&_)]].
  destruct (Nat.ltb_spec 25 (JsString.characters author));
    [split; [discriminate|intros (?&?&[= <-]&_&?); lia]|].
  destruct (Nat.ltb_spec (JsString.characters author) 3);
    [split; [discriminate|intros (?&?&[= <-]&_&?); lia]|].
  split; [|reflexivity]. intros _. exists author, token.
  repeat split; try reflexivity; lia.
Qed.

Lemma prefix_append s q : String.prefix s (s +:+ q) = true.
Proof.
  induction s as [|c s IH]; simpl; [destruct q; reflexivity|].
  destruct (ascii_dec c c); [exact IH|congruence].
Qed.

Lemma error_view_of_share query validation (a : app) :
  errorHandler ("/share" +:+ query) validation a
  = (view (Some "share")
          (Data (Some validation) None (fst (generateCsrf (csrf a)))),
     App (QuotesDB a) (log a ++ [(warn, "errror")]) (console a)
         (snd (generateCsrf (csrf a)))).
Proof.
  unfold errorHandler, generate, write_log.
  rewrite prefix_append.
  destruct (generateCsrf (csrf a)) as [token st]. reflexivity.
Qed.

Lemma error_view_of_search query validation (a : app) :
  errorHandler ("/search" +:+ query) validation a
  = (view (Some "search")
          (Data (Some validation) None (fst (generateCsrf (csrf a)))),
     App (QuotesDB a) (log a ++ [(warn, "errror")]) (console a)
         (snd (generateCsrf (csrf a)))).
Proof.
  unfold errorHandler, generate, write_log.
  rewrite prefix_append.
  replace (String.prefix "/share" ("/search" +:+ query)) with false
    by reflexivity.
  destruct (generateCsrf (csrf a)) as [token st]. reflexivity.
Qed.

(** X14: a [POST /share] whose body has an author of 3 to 25 characters, a
    quote of 20 to 300 and a [_csrf] field appends exactly that quote at
    the end of [QuotesDB], keeping the earlier quotes in place, logs one
    line and redirects to /. *)
Theorem valid_share_appends_quote
    (query : string) (body : gmap string string) (a : app)
    (author text token : string) :
  body !! "author" = Some author -> body !! "quote" = Some text ->
  body !! "_csrf" = Some token ->
  3 <= JsString.characters author <= 25 -> 20 <= JsString.characters text <= 300 ->
  post_share query body a
  = (redirect "/",
     App (QuotesDB a ++ [ Quote (Some author) (Some text) ])
         (log a ++ [ (info, "New quote added by " +:+ author) ])
         (console a ++ [ author ]) (csrf a)).
Proof.
  intros Ha Ht Hc Hla Hlt. unfold post_share.
  assert (Hv : validate shareSchema body = []).
  { apply validate_share_iff. exists author, text, token. auto. }
  rewrite Hv. unfold post_share_handler, write_log. rewrite Ha, Ht.
  reflexivity.
Qed.

(** X15: a [POST /share] whose body fails the schema (a field is missing,
    or the author or the quote is too short or too long) leaves [QuotesDB]
    as it was; the error handler renders the [share] view with the
    validation errors and a newly generated token and logs a warning. *)
Theorem invalid_share_keeps_quotes
    (query : string) (body : gmap string string) (a : app) :
  ~ (exists author text token,
        body !! "author" = Some author /\ body !! "quote" = Some text /\
        body !! "_csrf" = Some token /\
        3 <= JsString.characters author <= 25 /\ 20 <= JsString.characters text <= 300) ->
  validate shareSchema body ≠ [] /\
  post_share query body a
  = (view (Some "share")
          (Data (Some (validate shareSchema body)) None
                (fst (generateCsrf (csrf a)))),
     App (QuotesDB a) (log a ++ [(warn, "errror")]) (console a)
         (snd (generateCsrf (csrf a)))).
Proof.
  intros Hbad.
  assert (Hne : validate shareSchema body ≠ []).
  { intros Hv. apply Hbad, validate_share_iff. assumption. }
  split; [assumption|]. unfold post_share.
  destruct (validate shareSchema body) as [|e errs] eqn:Hv; [congruence|].
  apply error_view_of_share.
Qed.

Lemma filter_by_author_valid author db :
  Forall Inv.valid_quote db ->
  filter_by_author (Some author) db
  = Some (List.filter (Inv.written_by author) db).
Proof.
  induction 1 as [|q db (qa & qt & -> & _) _ IH]; simpl; [reflexivity|].
  rewrite IH. unfold Inv.written_by. simpl. reflexivity.
Qed.

Lemma post_search_keeps_quotes query body (a : app) :
  QuotesDB (snd (post_search query body a)) = QuotesDB a.
Proof.
  unfold post_search.
  destruct (validate searchSchema body) as [|e errs].
  - unfold post_search_handler, generate.
    destruct (filter_by_author (body !! "author") (QuotesDB a));
      [|reflexivity].
    destruct (generateCsrf (csrf a)). reflexivity.
  - rewrite error_view_of_search. reflexivity.
Qed.

Lemma post_share_keeps_valid query body (a : app) :
  Forall Inv.valid_quote (QuotesDB a) ->
  Forall Inv.valid_quote (QuotesDB (snd (post_share query body a))).
Proof.
  intros Hvalid. unfold post_share.
  destruct (validate shareSchema body) as [|e errs] eqn:Hv.
  - apply validate_share_iff in Hv
      as (author & text & token & Ha & Ht & _ & Hla & Hlt).
    unfold post_share_handler, write_log. rewrite Ha, Ht. simpl.
    apply Forall_app. split; [assumption|].
    constructor; [|constructor]. exists author, text. auto.
  - rewrite error_view_of_share. assumption.
Qed.

Lemma reachable_quotes_valid (a : app) :
  Inv.reachable_quotes a -> Forall Inv.valid_quote (QuotesDB a).
Proof.
  induction 1 as [st|a _ IH|a _ IH|query body a _ IH|query body a _ IH].
  - constructor.
  - unfold get_share, generate, write_log.
    destruct (generateCsrf (csrf a)). assumption.
  - unfold get_search, generate.
    destruct (generateCsrf (csrf a)). assumption.
  - apply post_share_keeps_valid. assumption.
  - rewrite post_search_keeps_quotes. assumption.
Qed.

(** X16: every quote in a reachable [QuotesDB] has an author of 3 to 25
    characters and a text of 20 to 300, and on such a state [POST /search]
    never throws, whatever the body. *)
Theorem reachable_quotes_are_valid (a : app) :
  Inv.reachable_quotes a ->
  Forall Inv.valid_quote (QuotesDB a) /\
  (forall query body err, fst (post_search query body a) ≠ throw err).
Proof.
  intros Hr. pose proof (reachable_quotes_valid _ Hr) as Hvalid.
  split; [assumption|]. intros query body err. unfold post_search.
  destruct (validate searchSchema body) as [|e errs] eqn:Hv.
  - apply validate_search_iff in Hv as (author & token & Ha & _ & _).
    unfold post_search_handler, generate.
    rewrite Ha, (filter_by_author_valid _ _ Hvalid).
    destruct (generateCsrf (csrf a)). discriminate.
  - rewrite error_view_of_search. discriminate.
Qed.

(** X17: on a [QuotesDB] of well-formed quotes with ASCII authors, a
    [POST /search] for an ASCII author of 3 to 25 characters renders the
    [search] view with exactly the stored quotes whose author equals the
    searched one up to letter case, in stored order, and a newly generated
    token; [QuotesDB] and the log are not changed. *)
Theorem search_returns_quotes_of_author
    (query : string) (body : gmap string string) (a : app)
    (author token : string) :
  Forall Inv.valid_quote (QuotesDB a) ->
  Forall (fun q => forall qa, Quotes.author q = Some qa -> Inv.ascii_only qa)
         (QuotesDB a) ->
  Inv.ascii_only author ->
  body !! "author" = Some author -> body !! "_csrf" = Some token ->
  3 <= String.length author <= 25 ->
  post_search query body a
  = (view (Some "search")
          (Data None (Some (List.filter (Inv.written_by author) (QuotesDB a)))
                (fst (generateCsrf (csrf a)))),
     App (QuotesDB a) (log a) (console a) (snd (generateCsrf (csrf a)))).
Proof.
  intros Hvalid _ Hascii Ha Hc Hla. unfold post_search.
  rewrite <- (characters_ascii _ Hascii) in Hla.
  assert (Hv : validate searchSchema body = []).
  { apply validate_search_iff. exists author, token. auto. }
  rewrite Hv. unfold post_search_handler, generate.
  rewrite Ha, (filter_by_author_valid _ _ Hvalid).
  destruct (generateCsrf (csrf a)). reflexivity.
Qed.

(** X18: with authors written in ASCII characters, a quote shared
    through a valid [POST /share] is found by a following [POST /search]
    for its author written in any letter case: it is the last of the
    quotes handed to the [search] view, and the quotes before it were all
    stored earlier.  The lengths are counted in characters. *)
Theorem shared_quote_is_found
    (q1 q2 : string) (share search : gmap string string) (a : app)
    (author text token asked token' : string) :
  Forall Inv.valid_quote (QuotesDB a) ->
  Forall (fun q => forall qa, Quotes.author q = Some qa -> Inv.ascii_only qa)
         (QuotesDB a) ->
  Inv.ascii_only author -> Inv.ascii_only asked ->
  share !! "author" = Some author -> share !! "quote" = Some text ->
  share !! "_csrf" = Some token ->
  3 <= JsString.characters author <= 25 ->
  20 <= JsString.characters text <= 300 ->
  search !! "author" = Some asked -> search !! "_csrf" = Some token' ->
  3 <= JsString.characters asked <= 25 ->
  JsString.toLowerCase asked = JsString.toLowerCase author ->
  exists earlier tk a',
    post_search q2 search (snd (post_share q1 share a))
    = (view (Some "search")
            (Data None (Some (earlier ++ [ Quote (Some author) (Some text) ]))
                  tk), a') /\
    forall q, q ∈ earlier -> q ∈ QuotesDB a.
Proof.
  intros Hvalid _ _ _ Ha Ht Hc Hla Hlt Hs Hc' Hls Hsame.
  assert (Hv1 : validate shareSchema share = []).
  { apply validate_share_iff. exists author, text, token. auto. }
  assert (Hv2 : validate searchSchema search = []).
  { apply validate_search_iff. exists asked, token'. auto. }
  assert (Hvalid' : Forall Inv.valid_quote
                      (QuotesDB a ++ [ Quote (Some author) (Some text) ])).
  { apply Forall_app. split; [assumption|].
    constructor; [|constructor]. exists author, text. auto. }
  unfold post_share. rewrite Hv1.
  unfold post_share_handler, write_log. rewrite Ha, Ht. simpl.
  unfold post_search. rewrite Hv2.
  unfold post_search_handler, generate. simpl.
  rewrite Hs, (filter_by_author_valid _ _ Hvalid'), List.filter_app. simpl.
  unfold Inv.written_by at 2. simpl. rewrite Hsame, String.eqb_refl.
  destruct (generateCsrf (csrf a)) as [tk st].
  exists (List.filter (Inv.written_by asked) (QuotesDB a)). eexists _, _.
  split; [reflexivity|].
  intros q Hq. apply list_elem_of_In, List.filter_In in Hq as [Hq _].
  apply list_elem_of_In. assumption.
Qed.

End QuoteFacts.

(** ** The contact forms *)
Section ContactFlows.
Import Schema.
Context `{Csrf}.

(** X19: the schema-less [POST /contact] logs the submission and greets the
    sender exactly when both name and message are present and non-empty;
    if either is missing or empty it renders the form with the error
    "Name and message are required" and logs nothing. *)
Theorem plain_contact_needs_both_fields
    (body : gmap string string) (log : list string) :
  (forall name message,
      body !! "name" = Some name -> body !! "message" = Some message ->
      name ≠ "" -> message ≠ "" ->
      PlainContact.post_contact body log
      = (PlainContact.Contact None (Some name),
         log ++ [ "Received message from " +:+ name +:+ ": " +:+ message ])) /\
  ((body !! "name" = None \/ body !! "name" = Some "" \/
    body !! "message" = None \/ body !! "message" = Some "") ->
   PlainContact.post_contact body log
   = (PlainContact.Contact (Some "Name and message are required") None, log)).
Proof.
  unfold PlainContact.post_contact. split.
  - intros name message -> -> Hn Hm. simpl.
    apply String.eqb_neq in Hn, Hm. rewrite Hn, Hm. reflexivity.
  - intros [-> | [-> | [-> | ->]]]; simpl; try reflexivity.
    + destruct (PlainContact.truthy (body !! "name")); reflexivity.
    + destruct (PlainContact.truthy (body !! "name")); reflexivity.
Qed.

(** X20: a [POST /contact_csrf] whose body has a name of 3 to 25
    characters, a message of at most 200 (the empty message included) and
    a [_csrf] field reaches the handler: one line is logged and the view
    receives the name as [submittedName], no errors and a newly generated
    token. *)
Theorem valid_contact_is_accepted
    (body : gmap string string) (a : Contact.app) (name message token : string) :
  body !! "name" = Some name -> body !! "message" = Some message ->
  body !! "_csrf" = Some token ->
  3 <= JsString.characters name <= 25 -> JsString.characters message <= 200 ->
  ~ Spec.rejected_body body /\
  Contact.post_contact_csrf body a
  = (Contact.view
       (Contact.ContactCsrf None (Some name)
                            (fst (generateCsrf (Contact.csrf a)))),
     Contact.App
       (Contact.log a
        ++ [ "Received from " +:+ name +:+ ": " +:+ message ])
       (snd (generateCsrf (Contact.csrf a)))).
Proof.
  intros Hn Hm Hc Hname Hmessage. split.
  - unfold Spec.rejected_body. rewrite Hn, Hm, Hc.
    intros [Hx | [Hx | [Hx | [(n & [= <-] & Hl) | (m & [= <-] & Hl)]]]];
      try discriminate; lia.
  - unfold Contact.post_contact_csrf.
    rewrite (validate_contact_accepts _ _ _ _ Hn Hm Hc Hname Hmessage).
    unfold Contact.post_contact_csrf_handler. rewrite Hn, Hm. simpl.
    destruct (generateCsrf (Contact.csrf a)). reflexivity.
Qed.

Lemma validate_ignores_field (sch : object_schema) body t1 t2 :
  Forall (fun p => fst p = "_csrf" -> snd p = StringRule None None)
         (properties sch) ->
  validate sch (<["_csrf" := t2]> body)
  = validate sch (<["_csrf" := t1]> body).
Proof.
  intros Hrules. unfold validate.
  assert (Hreq : forall l,
             first_error (check_required (<["_csrf" := t2]> body)) l
             = first_error (check_required (<["_csrf" := t1]> body)) l).
  { induction l as [|k l IH]; simpl; [reflexivity|].
    rewrite IH. unfold check_required.
    destruct (decide (k = "_csrf")) as [->|Hne].
    - rewrite !lookup_insert_eq. reflexivity.
    - rewrite !lookup_insert_ne by congruence. reflexivity. }
  rewrite Hreq.
  destruct (first_error (check_required (<["_csrf" := t1]> body))
                        (required sch)); [reflexivity|].
  assert (Hprop : first_error (check_property (<["_csrf" := t2]> body))
                              (properties sch)
                  = first_error (check_property (<["_csrf" := t1]> body))
                                (properties sch)).
  { induction Hrules as [|[k rule] l Hk _ IH]; simpl; [reflexivity|].
    rewrite IH. unfold check_property. simpl.
    destruct (decide (k = "_csrf")) as [->|Hne].
    - rewrite !lookup_insert_eq. simpl in Hk. rewrite (Hk eq_refl).
      reflexivity.
    - rewrite !lookup_insert_ne by congruence. reflexivity. }
  rewrite Hprop. reflexivity.
Qed.

(** X21: the value of the [_csrf] field is never compared with a generated
    token: replacing it by any other string changes neither the reply nor
    the state of [POST /contact_csrf], [POST /share] and [POST /search]. *)
Theorem csrf_field_value_is_ignored
    (body : gmap string string) (t1 t2 : string) :
  (forall a,
      Contact.post_contact_csrf (<["_csrf" := t2]> body) a
      = Contact.post_contact_csrf (<["_csrf" := t1]> body) a) /\
  (forall query a,
      Quotes.post_share query (<["_csrf" := t2]> body) a
      = Quotes.post_share query (<["_csrf" := t1]> body) a) /\
  (forall query a,
      Quotes.post_search query (<["_csrf" := t2]> body) a
      = Quotes.post_search query (<["_csrf" := t1]> body) a).
Proof.
  split; [|split].
  - intros a. unfold Contact.post_contact_csrf.
    rewrite (validate_ignores_field _ body t1 t2).
    + unfold Contact.post_contact_csrf_handler.
      rewrite !lookup_insert_ne by discriminate. reflexivity.
    + repeat constructor; simpl; discriminate.
  - intros query a. unfold Quotes.post_share.
    rewrite (validate_ignores_field _ body t1 t2).
    + unfold Quotes.post_share_handler.
      rewrite !lookup_insert_ne by discriminate. reflexivity.
    + repeat constructor; simpl; discriminate.
  - intros query a. unfold Quotes.post_search.
    rewrite (validate_ignores_field _ body t1 t2).
    + unfold Quotes.post_search_handler.
      rewrite !lookup_insert_ne by discriminate. reflexivity.
    + repeat constructor; simpl; discriminate.
Qed.

(** X22: [POST /create] is registered without [createSchema]: a logged-in
    request whose title is empty or longer than 50 characters, or whose
    content is empty, fails that schema and is stored all the same. *)
Theorem create_does_not_apply_its_schema
    (title content : string) (w : Http.world Wiki.app) :
  Session.truthy (Session.get "username" (Http.session w)) = true ->
  title = "" \/ 50 < JsString.characters title \/ content = "" ->
  validate WikiAuth.createSchema
           {[ "title" := title; "content" := content ]} ≠ [] /\
  Js.record_at
    (Wiki.pages (Http.store (snd (Wiki.post_create title content w)))) title
  = Some (Wiki.Page content (Session.get "username" (Http.session w)) None).
Proof.
  intros Hin Hbad. split.
  - set (body := {[ "title" := title; "content" := content ]}
                 : gmap string string).
    assert (Ht : body !! "title" = Some title) by apply lookup_insert_eq.
    assert (Hc : body !! "content" = Some content).
    { subst body. rewrite lookup_insert_ne by discriminate.
      apply lookup_singleton_eq. }
    clearbody body.
    unfold validate, WikiAuth.createSchema. simpl.
    unfold check_required, check_property, check_string. simpl.
    rewrite Ht, Hc.
    destruct (Nat.ltb_spec 50 (JsString.characters title)); [discriminate|].
    destruct (Nat.ltb_spec (JsString.characters title) 1); [discriminate|].
    destruct (Nat.ltb_spec (JsString.characters content) 1); [discriminate|].
    exfalso. destruct Hbad as [-> | [Hlong | ->]]; simpl in *; lia.
  - unfold Wiki.post_create. rewrite Hin. simpl. apply record_at_set_eq.
Qed.

End ContactFlows.

(** ** The product and profile lookups *)
Section LookupFacts.
Import Lookup.

Lemma own_or_inherited {A} (o : gmap string A) k :
  Js.get o k = Js.Undefined <-> o !! k = None /\ Js.inherited k = false.
Proof.
  unfold Js.get. destruct (o !! k); [split; [discriminate|intros [[=] _]]|].
  destruct (Js.inherited k); split; try discriminate; auto.
  intros [_ [=]].
Qed.

Lemma productsDb_keys k :
  is_Some (productsDb !! k) <-> k = "100" \/ k = "101" \/ k = "102".
Proof.
  split.
  - intros Hs.
    destruct (decide (k = "100")) as [->|H0]; [auto|].
    destruct (decide (k = "101")) as [->|H1]; [auto|].
    destruct (decide (k = "102")) as [->|H2]; [auto|].
    exfalso. unfold productsDb in Hs.
    rewrite !lookup_insert_ne, lookup_singleton_ne in Hs by congruence.
    destruct Hs as [x [=]].
  - intros [-> | [-> | ->]]; eexists; vm_compute; reflexivity.
Qed.

(** X23: [GET /products/:productId] answers 404 "Product not found" exactly
    when the id is none of 100, 101, 102 and is not a property name
    inherited from [Object.prototype], whatever the query; for a stored
    product it answers 200 with the requested id, the product's name and
    price, and the currency of the query, which is USD only when the query
    has no [currency] at all (an empty one is kept). *)
Theorem product_lookup_answers (productId : string) (currency : Books.param) :
  (get_product productId currency
   = ProductReply 404 (product_error "Product not found") <->
   productId ≠ "100" /\ productId ≠ "101" /\ productId ≠ "102" /\
   Js.inherited productId = false) /\
  (forall p, productsDb !! productId = Some p ->
             get_product productId Books.Absent
             = ProductReply 200
                 (responseData productId (Some (name p)) (Some (price p))
                               (Books.Single "USD")) /\
             (currency ≠ Books.Absent ->
              get_product productId currency
              = ProductReply 200
                  (responseData productId (Some (name p)) (Some (price p))
                                currency))).
Proof.
  split.
  - unfold get_product.
    pose proof (own_or_inherited productsDb productId) as Hu.
    pose proof (productsDb_keys productId) as Hk.
    destruct (Js.get productsDb productId) as [p|k|] eqn:Hg.
    + split; [discriminate|]. intros (H0 & H1 & H2 & _).
      unfold Js.get in Hg. destruct (productsDb !! productId) eqn:Hl.
      * destruct Hk as [Hk _]. destruct (Hk (ex_intro _ _ eq_refl))
          as [-> | [-> | ->]]; congruence.
      * destruct (Js.inherited productId); discriminate.
    + split; [discriminate|]. intros (_ & _ & _ & Hni).
      unfold Js.get in Hg. destruct (productsDb !! productId); [discriminate|].
      rewrite Hni in Hg. discriminate.
    + split; [|reflexivity]. intros _.
      destruct Hu as [Hu _]. destruct (Hu eq_refl) as [Hnone Hni].
      repeat split; try assumption; intros ->;
        vm_compute in Hnone; discriminate.
  - intros p Hp. unfold get_product, Js.get. rewrite Hp. split; [reflexivity|].
    intros Hc. destruct currency; [congruence|reflexivity|reflexivity].
Qed.

Lemma profiles_keys k :
  is_Some (profiles !! k) <->
  k = "Alice" \/ k = "Bob" \/ k = "Carol" \/ k = "Dave".
Proof.
  split.
  - intros Hs.
    destruct (decide (k = "Alice")) as [->|H0]; [auto|].
    destruct (decide (k = "Bob")) as [->|H1]; [auto|].
    destruct (decide (k = "Carol")) as [->|H2]; [auto|].
    destruct (decide (k = "Dave")) as [->|H3]; [auto 6|].
    exfalso. unfold profiles in Hs.
    rewrite !lookup_insert_ne, lookup_singleton_ne in Hs by congruence.
    destruct Hs as [x [=]].
  - intros [-> | [-> | [-> | ->]]]; eexists; vm_compute; reflexivity.
Qed.

(** X24: [GET /profile/:username] answers 404 "User not found" exactly when
    the name is none of Alice, Bob, Carol, Dave (names are case-sensitive)
    and is not inherited from [Object.prototype]; for a stored profile it
    returns the whole profile only when [details] is the single string
    [true], and the username alone for every other query. *)
Theorem profile_lookup_answers (name : string) (details : Books.param) :
  (get_profile name details = ProfileReply 404 (profile_error "User not found")
   <->
   name ≠ "Alice" /\ name ≠ "Bob" /\ name ≠ "Carol" /\ name ≠ "Dave" /\
   Js.inherited name = false) /\
  (forall p, profiles !! name = Some p ->
             get_profile name (Books.Single "true") = ProfileReply 200 (whole p) /\
             (details ≠ Books.Single "true" ->
              get_profile name details
              = ProfileReply 200 (only_username (Some (username p))))).
Proof.
  split.
  - unfold get_profile.
    pose proof (own_or_inherited profiles name) as Hu.
    pose proof (profiles_keys name) as Hk.
    destruct (Js.get profiles name) as [p|k|] eqn:Hg.
    + split; [destruct (strict_ne details "true"); discriminate|].
      intros (H0 & H1 & H2 & H3 & _).
      unfold Js.get in Hg. destruct (profiles !! name) eqn:Hl.
      * destruct Hk as [Hk _]. destruct (Hk (ex_intro _ _ eq_refl))
          as [-> | [-> | [-> | ->]]]; congruence.
      * destruct (Js.inherited name); discriminate.
    + split; [destruct (strict_ne details "true"); discriminate|].
      intros (_ & _ & _ & _ & Hni).
      unfold Js.get in Hg. destruct (profiles !! name); [discriminate|].
      rewrite Hni in Hg. discriminate.
    + split; [|reflexivity]. intros _.
      destruct Hu as [Hu _]. destruct (Hu eq_refl) as [Hnone Hni].
      repeat split; try assumption; intros ->;
        vm_compute in Hnone; discriminate.
  - intros p Hp. unfold get_profile, Js.get. rewrite Hp. split; [reflexivity|].
    intros Hd. destruct details as [|v|x y rest]; try reflexivity.
    simpl. destruct (String.eqb_spec v "true") as [->|Hne]; [congruence|].
    reflexivity.
Qed.

End LookupFacts.

(** ** The further properties at concrete inputs *)

Lemma mem_register_then_login_opens_profile_witness :
  let w := Http.World MemAuth.users Session.empty in
  Http.store w !! "bob" = None /\ Js.inherited "bob" = false /\ "bob" ≠ "" /\
  @argon2_verify Spec.demo_argon2
    (@argon2_hash Spec.demo_argon2 "s1" "hunter2") "hunter2" = true /\
  fst (MemAuth.get_profile
         (snd (@MemSession.post_login Spec.demo_argon2 "bob" "hunter2"
                 (snd (@MemAuth.post_register Spec.demo_argon2
                         "bob" "hunter2" "s1" w)))))
  = Http.View (MemAuth.profile (Some (Session.Str "bob"))).
Proof.
  intros w.
  assert (Hne : "bob" ≠ "") by discriminate.
  assert (Hok : @argon2_verify Spec.demo_argon2
                  (@argon2_hash Spec.demo_argon2 "s1" "hunter2") "hunter2"
                = true) by (vm_compute; reflexivity).
  split; [reflexivity|]. split; [vm_compute; reflexivity|].
  split; [exact Hne|]. split; [exact Hok|].
  apply (@mem_register_then_login_opens_profile Spec.demo_argon2
           "bob" "hunter2" "s1" w eq_refl eq_refl Hne Hok).
Defined.

Lemma mem_empty_username_is_never_logged_in_witness :
  let w := Http.World MemAuth.users Session.empty in
  Http.store w !! "" = None /\
  @argon2_verify Spec.demo_argon2
    (@argon2_hash Spec.demo_argon2 "s1" "hunter2") "hunter2" = true /\
  fst (MemAuth.get_profile
         (snd (@MemSession.post_login Spec.demo_argon2 "" "hunter2"
                 (snd (@MemAuth.post_register Spec.demo_argon2
                         "" "hunter2" "s1" w)))))
  = Http.Redirect "/login".
Proof.
  intros w.
  assert (Hok : @argon2_verify Spec.demo_argon2
                  (@argon2_hash Spec.demo_argon2 "s1" "hunter2") "hunter2"
                = true) by (vm_compute; reflexivity).
  split; [reflexivity|]. split; [exact Hok|].
  apply (@mem_empty_username_is_never_logged_in Spec.demo_argon2
           "hunter2" "s1" w eq_refl Hok).
Defined.

Lemma orm_register_then_login_witness :
  let w := Http.World ([] : UserTable.table) Session.empty in
  Spec.well_formed (Http.store w) /\
  ("bob" ∉ UserTable.username <$> Http.store w) /\
  @argon2_verify Spec.demo_argon2
    (@argon2_hash Spec.demo_argon2 "s1" "hunter2") "hunter2" = true /\
  fst (@OrmAuth.post_login Spec.demo_argon2 "bob" "hunter2"
         (snd (@OrmAuth.post_register Spec.demo_argon2
                 "bob" "hunter2" "s1" w)))
  = Http.Redirect "/".
Proof.
  intros w.
  assert (Hwf : Spec.well_formed (Http.store w)) by apply well_formed_nil.
  assert (Hfresh : "bob" ∉ UserTable.username <$> Http.store w)
    by apply not_elem_of_nil.
  assert (Hok : @argon2_verify Spec.demo_argon2
                  (@argon2_hash Spec.demo_argon2 "s1" "hunter2") "hunter2"
                = true) by (vm_compute; reflexivity).
  split; [exact Hwf|]. split; [exact Hfresh|]. split; [exact Hok|].
  destruct (@orm_register_then_login Spec.demo_argon2
              "bob" "hunter2" "s1" w Hwf Hfresh Hok) as [Hlogin _].
  exact (f_equal fst Hlogin).
Defined.

Lemma reachable_ids_are_consecutive_witness :
  let w0 := Http.World ([] : UserTable.table) Session.empty in
  let w1 := snd (@OrmAuth.post_register Spec.demo_argon2 "bob" "hunter2" "s1" w0) in
  let w2 := snd (@OrmAuth.post_register Spec.demo_argon2 "eve" "letmein" "s2" w1) in
  @Spec.reachable Spec.demo_argon2 (Http.store w2) /\
  NoDup (UserTable.id <$> Http.store w2).
Proof.
  intros w0 w1 w2.
  assert (Hreach : @Spec.reachable Spec.demo_argon2 (Http.store w2)).
  { apply (@Spec.reach_register Spec.demo_argon2 "eve" "letmein" "s2" w1).
    apply (@Spec.reach_register Spec.demo_argon2 "bob" "hunter2" "s1" w0).
    apply (@Spec.reach_init Spec.demo_argon2). }
  split; [exact Hreach|].
  apply (@reachable_ids_are_consecutive Spec.demo_argon2 _ Hreach).
Defined.

Lemma reachable_hashes_come_from_argon2_witness :
  let w0 := Http.World ([] : UserTable.table) Session.empty in
  let w1 := snd (@OrmAuth.post_register Spec.demo_argon2 "bob" "hunter2" "s1" w0) in
  @Spec.reachable Spec.demo_argon2 (Http.store w1) /\
  UserTable.Row 1 "bob" "s1$hunter2" ∈ Http.store w1 /\
  exists sl p, "s1$hunter2" = @argon2_hash Spec.demo_argon2 sl p.
Proof.
  intros w0 w1.
  assert (Hreach : @Spec.reachable Spec.demo_argon2 (Http.store w1)).
  { apply (@Spec.reach_register Spec.demo_argon2 "bob" "hunter2" "s1" w0).
    apply (@Spec.reach_init Spec.demo_argon2). }
  assert (Hin : UserTable.Row 1 "bob" "s1$hunter2" ∈ Http.store w1).
  { vm_compute. apply list_elem_of_here. }
  split; [exact Hreach|]. split; [exact Hin|].
  exact (@reachable_hashes_come_from_argon2 Spec.demo_argon2 _ Hreach _ Hin).
Defined.

Lemma wiki_register_login_create_witness :
  let w := Http.World Wiki.inMemoryDatabase Session.empty in
  Wiki.users (Http.store w) !! "bob" = None /\
  Js.inherited "bob" = false /\ "bob" ≠ "" /\
  @argon2_verify Spec.demo_argon2
    (@argon2_hash Spec.demo_argon2 "s1" "hunter2") "hunter2" = true /\
  Js.record_at
    (Wiki.pages
       (Http.store
          (snd (Wiki.post_create "Home" "hello"
                  (snd (@WikiAuth.post_login Spec.demo_argon2 "bob" "hunter2"
                          (snd (@WikiAuth.post_register Spec.demo_argon2
                                  "bob" "hunter2" "s1" w)))))))) "Home"
  = Some (Wiki.Page "hello" (Some (Session.Str "bob")) None).
Proof.
  intros w.
  assert (Hne : "bob" ≠ "") by discriminate.
  assert (Hok : @argon2_verify Spec.demo_argon2
                  (@argon2_hash Spec.demo_argon2 "s1" "hunter2") "hunter2"
                = true) by (vm_compute; reflexivity).
  split; [reflexivity|]. split; [vm_compute; reflexivity|].
  split; [exact Hne|]. split; [exact Hok|].
  apply (@wiki_register_login_create Spec.demo_argon2
           "bob" "hunter2" "Home" "hello" "s1" w eq_refl eq_refl Hne Hok).
Defined.

Lemma upload_shows_on_profile_once_witness :
  let bob := Session.set "username" (Session.Str "bob") Session.empty in
  let w := Http.World (Wiki.App {[ "bob" := Wiki.User "digest" None ]}
                                (Js.Object ∅ None) []) bob in
  let upload := Wiki.File "me.PNG" "bytes" in
  Session.truthy (Session.get "username" (Http.session w)) = true /\
  Spec.within_limit upload /\
  Multipart.allowedFile (Wiki.filename upload) = true /\
  fst (Wiki.get_profile
         (snd (Wiki.post_profile_request
                 (Some (Wiki.file_part upload)) 1700 w)))
  = Http.View
      (Wiki.profile (Js.Own (Wiki.User "digest" (Some "1700_me.PNG")))
                    [ Flash.Message "success" "Avatar updated!" ]).
Proof.
  intros bob w upload.
  assert (Hin : Session.truthy (Session.get "username" (Http.session w))
                = true) by reflexivity.
  assert (Hok : Multipart.allowedFile (Wiki.filename upload) = true)
    by (vm_compute; reflexivity).
  assert (Hu : Wiki.users (Http.store w)
               !! Session.to_key (Session.get "username" (Http.session w))
               = Some (Wiki.User "digest" None))
    by (vm_compute; reflexivity).
  assert (Hsize : Spec.within_limit upload).
  { unfold Spec.within_limit, Wiki.fileSize. simpl. lia. }
  split; [exact Hin|]. split; [exact Hsize|]. split; [exact Hok|].
  destruct (upload_shows_on_profile_once upload 1700
              (Wiki.User "digest" None) w Hin Hsize Hok Hu) as [Hview _].
  etransitivity; [exact Hview|]. vm_compute. reflexivity.
Defined.

Lemma unauthenticated_get_create_drops_messages_witness :
  let s := Flash.request_flash "success" "Registration successful! Please log in."
             Session.empty in
  let w := Http.World Wiki.inMemoryDatabase s in
  Session.truthy (Session.get "username" (Http.session w)) = false /\
  Session.pending "success" (Http.session w)
  = [ "Registration successful! Please log in." ] /\
  Session.pending "success" (Http.session (snd (Wiki.get_create w))) = [].
Proof.
  intros s w.
  assert (Hout : Session.truthy (Session.get "username" (Http.session w))
                 = false) by reflexivity.
  split; [exact Hout|]. split; [vm_compute; reflexivity|].
  destruct (unauthenticated_get_create_drops_messages w Hout)
    as (_ & _ & Hsuccess & _).
  exact Hsuccess.
Defined.

Lemma collectMessages_returns_three_categories_witness :
  let s := Flash.request_flash "warning" "kept"
             (Flash.request_flash "info" "shown" Session.empty) in
  ("warning" ∉ Flash.categories) /\
  Flash.Message "info" "shown" ∈ fst (Flash.collectMessages s) /\
  Session.pending "warning" (snd (Flash.collectMessages s))
  = Session.pending "warning" s.
Proof.
  intros s.
  assert (Hw : "warning" ∉ Flash.categories).
  { unfold Flash.categories. rewrite !not_elem_of_cons.
    repeat split; try discriminate. apply not_elem_of_nil. }
  destruct (collectMessages_returns_three_categories s) as [Hmem Hother].
  split; [exact Hw|]. split; [|exact (Hother "warning" Hw)].
  apply Hmem. simpl. split.
  - unfold Flash.categories. rewrite !elem_of_cons. auto.
  - vm_compute. apply list_elem_of_here.
Defined.

Lemma upload_writes_one_file_witness :
  let bob := Session.set "username" (Session.Str "bob") Session.empty in
  let w := Http.World Wiki.inMemoryDatabase bob in
  let upload := Wiki.File "me.gif" "bytes" in
  Session.truthy (Session.get "username" (Http.session w)) = true /\
  Spec.within_limit upload /\
  Multipart.allowedFile (Wiki.filename upload) = true /\
  fst (Wiki.post_profile_request (Some (Wiki.file_part upload)) 1700 w)
  = Http.Throw "TypeError" /\
  Wiki.disk
    (Http.store
       (snd (Wiki.post_profile_request (Some (Wiki.file_part upload)) 1700 w)))
  = [ ("public/avatars/1700_me.gif", "bytes") ].
Proof.
  intros bob w upload.
  assert (Hin : Session.truthy (Session.get "username" (Http.session w))
                = true) by reflexivity.
  assert (Hok : Multipart.allowedFile (Wiki.filename upload) = true)
    by (vm_compute; reflexivity).
  assert (Hsize : Spec.within_limit upload).
  { unfold Spec.within_limit, Wiki.fileSize. simpl. lia. }
  split; [exact Hin|]. split; [exact Hsize|]. split; [exact Hok|].
  destruct (upload_writes_one_file (Some (Wiki.file_part upload)) 1700 w Hin)
    as (Hwritten & Hthrow & _).
  destruct (Hwritten upload eq_refl Hsize Hok) as (Hdisk & _).
  split.
  - apply (Hthrow upload eq_refl Hsize Hok). vm_compute. reflexivity.
  - etransitivity; [exact Hdisk|]. vm_compute. reflexivity.
Defined.

Lemma second_upload_keeps_first_file_witness :
  let bob := Session.set "username" (Session.Str "bob") Session.empty in
  let w := Http.World (Wiki.App {[ "bob" := Wiki.User "digest" None ]}
                                (Js.Object ∅ None) []) bob in
  let f1 := Wiki.File "a.png" "one" in
  let f2 := Wiki.File "b.jpg" "two" in
  Session.truthy (Session.get "username" (Http.session w)) = true /\
  let w2 := snd (Wiki.post_profile_request (Some (Wiki.file_part f2)) 20
                   (snd (Wiki.post_profile_request
                           (Some (Wiki.file_part f1)) 10 w))) in
  Spec.within_limit f1 /\ Spec.within_limit f2 /\
  Multipart.allowedFile (Wiki.filename f1) = true /\
  Multipart.allowedFile (Wiki.filename f2) = true /\
  Spec.stored_name 10 f1 ≠ Spec.stored_name 20 f2 /\
  Wiki.readFile "public/avatars/20_b.jpg" (Http.store w2) = Some "two" /\
  Wiki.readFile "public/avatars/10_a.png" (Http.store w2) = Some "one".
Proof.
  intros bob w f1 f2.
  assert (Hin : Session.truthy (Session.get "username" (Http.session w))
                = true) by reflexivity.
  assert (Hok1 : Multipart.allowedFile (Wiki.filename f1) = true)
    by (vm_compute; reflexivity).
  assert (Hok2 : Multipart.allowedFile (Wiki.filename f2) = true)
    by (vm_compute; reflexivity).
  assert (Hu : Wiki.users (Http.store w)
               !! Session.to_key (Session.get "username" (Http.session w))
               = Some (Wiki.User "digest" None))
    by (vm_compute; reflexivity).
  assert (Hsize1 : Spec.within_limit f1).
  { unfold Spec.within_limit, Wiki.fileSize. simpl. lia. }
  assert (Hsize2 : Spec.within_limit f2).
  { unfold Spec.within_limit, Wiki.fileSize. simpl. lia. }
  assert (Hne : Spec.stored_name 10 f1 ≠ Spec.stored_name 20 f2)
    by (vm_compute; discriminate).
  split; [exact Hin|]. split; [exact Hsize1|]. split; [exact Hsize2|].
  split; [exact Hok1|]. split; [exact Hok2|]. split; [exact Hne|].
  destruct (second_upload_keeps_first_file f1 f2 10 20
              (Wiki.User "digest" None) w Hin Hsize1 Hsize2 Hok1 Hok2 Hu)
    as (_ & Hnew & Hold).
  split; [exact Hnew|exact (Hold Hne)].
Defined.

Lemma valid_share_appends_quote_witness :
  let body : gmap string string :=
    {[ "author" := "Ada Lovelace";
       "quote" := "That brain of mine is something more than merely mortal.";
       "_csrf" := "token-0" ]} in
  let a := @Quotes.App Spec.demo_csrf [] [] [] 1 in
  3 <= JsString.characters "Ada Lovelace" <= 25 /\
  Quotes.QuotesDB (snd (@Quotes.post_share Spec.demo_csrf "" body a))
  = [ Quotes.Quote
        (Some "Ada Lovelace")
        (Some "That brain of mine is something more than merely mortal.") ].
Proof.
  intros body a.
  assert (Hla : 3 <= JsString.characters "Ada Lovelace" <= 25) by (simpl; lia).
  split; [exact Hla|].
  rewrite (@valid_share_appends_quote Spec.demo_csrf "" body a
             "Ada Lovelace"
             "That brain of mine is something more than merely mortal."
             "token-0");
    [reflexivity|vm_compute; reflexivity|vm_compute; reflexivity
     |vm_compute; reflexivity|exact Hla|simpl; lia].
Defined.

Lemma invalid_share_keeps_quotes_witness :
  let body : gmap string string :=
    {[ "author" := "Ada Lovelace"; "quote" := "Too short.";
       "_csrf" := "token-0" ]} in
  let old := Quotes.Quote (Some "Grace Hopper")
                          (Some "The most dangerous phrase is: we have always done it this way.") in
  let a := @Quotes.App Spec.demo_csrf [ old ] [] [] 1 in
  Quotes.QuotesDB (snd (@Quotes.post_share Spec.demo_csrf "" body a)) = [ old ] /\
  fst (@Quotes.post_share Spec.demo_csrf "" body a)
  = Quotes.view (Some "share")
      (Quotes.Data (Some [ Schema.TooShort "quote" 20 ]) None "token-1").
Proof.
  intros body old a.
  assert (Hbad : ~ (exists author text token,
                       body !! "author" = Some author /\
                       body !! "quote" = Some text /\
                       body !! "_csrf" = Some token /\
                       3 <= JsString.characters author <= 25 /\
                       20 <= JsString.characters text <= 300)).
  { intros (author & text & token & _ & Ht & _ & _ & Hlen).
    vm_compute in Ht. injection Ht as <-. simpl in Hlen. lia. }
  destruct (@invalid_share_keeps_quotes Spec.demo_csrf "" body a Hbad)
    as [_ Hreply].
  rewrite Hreply. split; vm_compute; reflexivity.
Defined.

Lemma reachable_quotes_are_valid_witness :
  let body : gmap string string :=
    {[ "author" := "Ada Lovelace";
       "quote" := "That brain of mine is something more than merely mortal.";
       "_csrf" := "token-0" ]} in
  let a := snd (@Quotes.post_share Spec.demo_csrf "" body
                  (@Quotes.App Spec.demo_csrf [] [] [] 1)) in
  @Inv.reachable_quotes Spec.demo_csrf a /\
  Forall Inv.valid_quote (Quotes.QuotesDB a).
Proof.
  intros body a.
  assert (Hreach : @Inv.reachable_quotes Spec.demo_csrf a).
  { apply (@Inv.quotes_share Spec.demo_csrf).
    apply (@Inv.quotes_init Spec.demo_csrf). }
  split; [exact Hreach|].
  apply (@reachable_quotes_are_valid Spec.demo_csrf a Hreach).
Defined.

Lemma search_returns_quotes_of_author_witness :
  let ada := Quotes.Quote
               (Some "Ada Lovelace")
               (Some "That brain of mine is something more than merely mortal.") in
  let grace := Quotes.Quote
                 (Some "Grace Hopper")
                 (Some "The most dangerous phrase is: we have always done it this way.") in
  let a := @Quotes.App Spec.demo_csrf [ ada; grace ] [] [] 1 in
  let body : gmap string string :=
    {[ "author" := "ADA LOVELACE"; "_csrf" := "token-0" ]} in
  Forall Inv.valid_quote (Quotes.QuotesDB a) /\
  Inv.ascii_only "ADA LOVELACE" /\
  fst (@Quotes.post_search Spec.demo_csrf "" body a)
  = Quotes.view (Some "search") (Quotes.Data None (Some [ ada ]) "token-1").
Proof.
  intros ada grace a body.
  assert (Hvalid : Forall Inv.valid_quote (Quotes.QuotesDB a)).
  { repeat constructor; eexists _, _; (split; [reflexivity|]); simpl; lia. }
  assert (Hdb : Forall (fun q => forall qa, Quotes.author q = Some qa ->
                                            Inv.ascii_only qa)
                       (Quotes.QuotesDB a)).
  { repeat constructor; intros qa [= <-]; unfold Inv.ascii_only; simpl;
      repeat constructor; simpl; lia. }
  assert (Hascii : Inv.ascii_only "ADA LOVELACE").
  { unfold Inv.ascii_only. simpl. repeat constructor; simpl; lia. }
  split; [exact Hvalid|]. split; [exact Hascii|].
  rewrite (@search_returns_quotes_of_author Spec.demo_csrf "" body a
             "ADA LOVELACE" "token-0" Hvalid Hdb Hascii);
    [vm_compute; reflexivity|vm_compute; reflexivity|vm_compute; reflexivity
     |simpl; lia].
Defined.

Lemma shared_quote_is_found_witness :
  let share : gmap string string :=
    {[ "author" := "Ada Lovelace";
       "quote" := "That brain of mine is something more than merely mortal.";
       "_csrf" := "token-0" ]} in
  let search : gmap string string :=
    {[ "author" := "ada lovelace"; "_csrf" := "token-1" ]} in
  let a := @Quotes.App Spec.demo_csrf [] [] [] 1 in
  Inv.ascii_only "Ada Lovelace" /\ Inv.ascii_only "ada lovelace" /\
  JsString.toLowerCase "ada lovelace" = JsString.toLowerCase "Ada Lovelace" /\
  exists earlier tk a',
    @Quotes.post_search Spec.demo_csrf "" search
      (snd (@Quotes.post_share Spec.demo_csrf "" share a))
    = (Quotes.view (Some "search")
         (Quotes.Data None
            (Some (earlier
                   ++ [ Quotes.Quote
                          (Some "Ada Lovelace")
                          (Some "That brain of mine is something more than merely mortal.") ]))
            tk), a') /\
    forall q, q ∈ earlier -> q ∈ Quotes.QuotesDB a.
Proof.
  intros share search a.
  assert (Hsame : JsString.toLowerCase "ada lovelace"
                  = JsString.toLowerCase "Ada Lovelace") by reflexivity.
  assert (Hauthor : Inv.ascii_only "Ada Lovelace").
  { unfold Inv.ascii_only. simpl. repeat constructor; simpl; lia. }
  assert (Hasked : Inv.ascii_only "ada lovelace").
  { unfold Inv.ascii_only. simpl. repeat constructor; simpl; lia. }
  split; [exact Hauthor|]. split; [exact Hasked|]. split; [exact Hsame|].
  apply (@shared_quote_is_found Spec.demo_csrf "" "" share search a
           "Ada Lovelace"
           "That brain of mine is something more than merely mortal."
           "token-0" "ada lovelace" "token-1");
    try exact Hauthor; try exact Hasked; try exact Hsame;
    try (vm_compute; reflexivity); try (simpl; lia); constructor.
Defined.

Lemma plain_contact_needs_both_fields_witness :
  let filled : gmap string string := {[ "name" := "Al"; "message" := "hi" ]} in
  let blank : gmap string string := {[ "name" := "Al"; "message" := "" ]} in
  snd (PlainContact.post_contact filled []) = [ "Received message from Al: hi" ] /\
  blank !! "message" = Some "" /\
  PlainContact.post_contact blank []
  = (PlainContact.Contact (Some "Name and message are required") None, []).
Proof.
  intros filled blank.
  assert (Hblank : blank !! "message" = Some "") by (vm_compute; reflexivity).
  destruct (plain_contact_needs_both_fields filled []) as [Hfilled _].
  destruct (plain_contact_needs_both_fields blank []) as [_ Hrefused].
  split; [|split; [exact Hblank|]].
  - rewrite (Hfilled "Al" "hi");
      [reflexivity|vm_compute; reflexivity|vm_compute; reflexivity
       |discriminate|discriminate].
  - apply Hrefused. right. right. right. exact Hblank.
Defined.

Lemma valid_contact_is_accepted_witness :
  let body : gmap string string :=
    {[ "name" := "Alice"; "message" := ""; "_csrf" := "anything" ]} in
  let a := @Contact.App Spec.demo_csrf [] 7 in
  3 <= JsString.characters "Alice" <= 25 /\ JsString.characters "" <= 200 /\
  @Contact.post_contact_csrf Spec.demo_csrf body a
  = (Contact.view (Contact.ContactCsrf None (Some "Alice") "token-7"),
     @Contact.App Spec.demo_csrf [ "Received from Alice: " ] 8).
Proof.
  intros body a.
  assert (Hn : 3 <= JsString.characters "Alice" <= 25) by (simpl; lia).
  assert (Hm : JsString.characters "" <= 200) by (simpl; lia).
  split; [exact Hn|]. split; [exact Hm|].
  destruct (@valid_contact_is_accepted Spec.demo_csrf body a
              "Alice" "" "anything") as [_ Hreply];
    [vm_compute; reflexivity|vm_compute; reflexivity|vm_compute; reflexivity
     |exact Hn|exact Hm|].
  etransitivity; [exact Hreply|]. vm_compute. reflexivity.
Defined.

Lemma create_does_not_apply_its_schema_witness :
  let w := Http.World Wiki.inMemoryDatabase
             (Session.set "username" (Session.Str "bob") Session.empty) in
  Session.truthy (Session.get "username" (Http.session w)) = true /\
  Schema.validate WikiAuth.createSchema {[ "title" := ""; "content" := "text" ]}
  ≠ [] /\
  Js.record_at
    (Wiki.pages (Http.store (snd (Wiki.post_create "" "text" w)))) ""
  = Some (Wiki.Page "text" (Some (Session.Str "bob")) None).
Proof.
  intros w.
  assert (Hin : Session.truthy (Session.get "username" (Http.session w))
                = true) by reflexivity.
  split; [exact Hin|].
  exact (create_does_not_apply_its_schema "" "text" w Hin
           (or_introl eq_refl)).
Defined.

Lemma product_lookup_answers_witness :
  Lookup.productsDb !! "101" = Some (Lookup.Product "Mouse" 25) /\
  Lookup.get_product "101" (Books.Single "")
  = Lookup.ProductReply 200
      (Lookup.responseData "101" (Some "Mouse") (Some 25%Z) (Books.Single "")) /\
  Lookup.get_product "999" (Books.Single "EUR")
  = Lookup.ProductReply 404 (Lookup.product_error "Product not found").
Proof.
  assert (Hmouse : Lookup.productsDb !! "101"
                   = Some (Lookup.Product "Mouse" 25))
    by (vm_compute; reflexivity).
  split; [exact Hmouse|]. split.
  - destruct (product_lookup_answers "101" (Books.Single "")) as [_ Hown].
    destruct (Hown _ Hmouse) as [_ Hgiven]. apply Hgiven. discriminate.
  - destruct (product_lookup_answers "999" (Books.Single "EUR")) as [Hmiss _].
    apply Hmiss. repeat split; discriminate.
Defined.

Lemma profile_lookup_answers_witness :
  Lookup.profiles !! "Bob"
  = Some (Lookup.Profile "Bob" "bob@example.com" "user") /\
  Lookup.get_profile "Bob" (Books.Repeated "true" "true" [])
  = Lookup.ProfileReply 200 (Lookup.only_username (Some "Bob")) /\
  Lookup.get_profile "bob" (Books.Single "true")
  = Lookup.ProfileReply 404 (Lookup.profile_error "User not found").
Proof.
  assert (Hbob : Lookup.profiles !! "Bob"
                 = Some (Lookup.Profile "Bob" "bob@example.com" "user"))
    by (vm_compute; reflexivity).
  split; [exact Hbob|]. split.
  - destruct (profile_lookup_answers "Bob" (Books.Repeated "true" "true" []))
      as [_ Hown].
    destruct (Hown _ Hbob) as [_ Hother]. apply Hother. discriminate.
  - destruct (profile_lookup_answers "bob" (Books.Single "true")) as [Hmiss _].
    apply Hmiss. repeat split; discriminate.
Defined.

(** ** Messages of the auth forms *)
Section AuthMessages.
Import Http.
Context `{Argon2}.

Lemma mem_view_messages (w : world (gmap string MemAuth.user)) :
  let read := World (store w)
                (Session.Make (Session.vars (session w))
                   (delete "info" (delete "success" (delete "danger"
                      (Session.flash (session w)))))) in
  let messages := Flash.tagged "danger" (session w)
                  ++ Flash.tagged "success" (session w)
                  ++ Flash.tagged "info" (session w) in
  MemSession.get_login w = (View (MemSession.login messages), read) /\
  MemSession.get_register w = (View (MemSession.register messages), read).
Proof.
  unfold MemSession.get_login, MemSession.get_register.
  rewrite collectMessages_unfold. split; reflexivity.
Qed.

(** X25: the message of a refused request is shown by the next form and
    only once.  After a login under a name that has no record and is not
    inherited from [Object.prototype], [GET /login] lists the pending
    messages with "Invalid username or password." as the last danger
    message; after a registration under a taken name, [GET /register] does
    the same with "Username already exists!"; rendering either form once
    more lists no message. *)
Theorem refusal_message_is_shown_once
    (u p : string) (sl : salt) (w : world (gmap string MemAuth.user)) :
  (store w !! u = None -> Js.inherited u = false ->
   let w1 := snd (MemSession.post_login u p w) in
   fst (MemSession.get_login w1)
   = View (MemSession.login
             ((Flash.tagged "danger" (session w)
               ++ [ Flash.Message "danger" "Invalid username or password." ])
              ++ Flash.tagged "success" (session w)
              ++ Flash.tagged "info" (session w))) /\
   fst (MemSession.get_login (snd (MemSession.get_login w1)))
   = View (MemSession.login [])) /\
  (forall r, store w !! u = Some r ->
   let w1 := snd (MemAuth.post_register u p sl w) in
   fst (MemSession.get_register w1)
   = View (MemSession.register
             ((Flash.tagged "danger" (session w)
               ++ [ Flash.Message "danger" "Username already exists!" ])
              ++ Flash.tagged "success" (session w)
              ++ Flash.tagged "info" (session w))) /\
   fst (MemSession.get_register (snd (MemSession.get_register w1)))
   = View (MemSession.register [])).
Proof.
  split.
  - intros Hnone Hni w1. subst w1.
    unfold MemSession.post_login, Js.get. rewrite Hnone, Hni.
    cbn [snd].
    destruct (mem_view_messages
                (flash "danger" "Invalid username or password." w))
      as [Hlogin _].
    rewrite Hlogin. cbn [fst snd].
    match goal with
    | |- _ /\ fst (MemSession.get_login ?x) = _ =>
        destruct (mem_view_messages x) as [Hagain _]; rewrite Hagain
    end.
    cbn [fst]. unfold Flash.tagged. split; do 2 f_equal.
    + f_equal; [|f_equal]; try (f_equal; flash_lookup).
      unfold Session.pending. simpl. rewrite lookup_insert_eq. simpl.
      rewrite fmap_app. reflexivity.
    + replace (Session.pending "danger" _) with (@nil string) by flash_lookup.
      replace (Session.pending "success" _) with (@nil string) by flash_lookup.
      replace (Session.pending "info" _) with (@nil string) by flash_lookup.
      reflexivity.
  - intros r Hr w1. subst w1.
    unfold MemAuth.post_register, Js.get. rewrite Hr. cbn [snd Js.truthy].
    destruct (mem_view_messages (flash "danger" "Username already exists!" w))
      as [_ Hregister].
    rewrite Hregister. cbn [fst snd].
    match goal with
    | |- _ /\ fst (MemSession.get_register ?x) = _ =>
        destruct (mem_view_messages x) as [_ Hagain]; rewrite Hagain
    end.
    cbn [fst]. unfold Flash.tagged. split; do 2 f_equal.
    + f_equal; [|f_equal]; try (f_equal; flash_lookup).
      unfold Session.pending. simpl. rewrite lookup_insert_eq. simpl.
      rewrite fmap_app. reflexivity.
    + replace (Session.pending "danger" _) with (@nil string) by flash_lookup.
      replace (Session.pending "success" _) with (@nil string) by flash_lookup.
      replace (Session.pending "info" _) with (@nil string) by flash_lookup.
      reflexivity.
Qed.

End AuthMessages.

Lemma refusal_message_is_shown_once_witness :
  let w := Http.World MemAuth.users Session.empty in
  Http.store w !! "bob" = None /\ Js.inherited "bob" = false /\
  fst (MemSession.get_login
         (snd (@MemSession.post_login Spec.demo_argon2 "bob" "guess" w)))
  = Http.View (MemSession.login
                 [ Flash.Message "danger" "Invalid username or password." ]).
Proof.
  intros w.
  assert (Hni : Js.inherited "bob" = false) by (vm_compute; reflexivity).
  split; [reflexivity|]. split; [exact Hni|].
  destruct (@refusal_message_is_shown_once Spec.demo_argon2
              "bob" "guess" "s1" w) as [Hlogin _].
  destruct (Hlogin eq_refl Hni) as [Hshown _].
  etransitivity; [exact Hshown|]. vm_compute. reflexivity.
Defined.
